(** * Health feedback form: classifier, data manager and exporter

    A shallow embedding of the pure logic of the health feedback form
    (class [HealthFeedbackApp] of the form script and class
    [HealthDataManager] of [assets/js/dashboard.js]) together with the
    properties its specification states about it.

    Conventions of the embedding.
    - A JavaScript string is a [string], the bytes of its UTF-8 encoding; a
      missing form answer ([null]) is any string outside the tables, since
      every use below coerces it to the property name ["null"] or compares
      it with [===].
    - A JavaScript number that the code keeps integral is a [Z].
    - An ISO-8601 timestamp string is represented by the instant it denotes,
      in milliseconds since the epoch; the [Date] library that prints
      instants and reads their calendar fields in the local time zone is
      part of the class [Host].  A date built from a number is checked
      against the range of [Date] ([timeClip]).
    - An object literal used as a lookup table is a [gmap string _] of its
      own properties; what a bracket lookup finds beyond them on
      [Object.prototype] is made explicit by [getProperty].
    - A [try]/[catch] block is a computation in the error monad [exn]. *)

From Stdlib Require Import ZArith Lia Ascii String.
From stdpp Require Import base decidable option list strings pretty gmap fin_maps.

Open Scope Z_scope.

(** ** JavaScript helpers shared by both scripts *)

Module JS.

(** The names every object literal inherits from [Object.prototype]: a
    bracket lookup [table[key]] with one of these keys does not yield
    [undefined] but the inherited function (or, for ["__proto__"], the
    prototype object itself), all of which are truthy. *)
Definition objectPrototypeKeys : list string :=
  [ "constructor"; "hasOwnProperty"; "isPrototypeOf"; "propertyIsEnumerable";
    "toLocaleString"; "toString"; "valueOf"; "__proto__";
    "__defineGetter__"; "__defineSetter__"; "__lookupGetter__";
    "__lookupSetter__" ]%string.

(** [Array.prototype.includes] on an array of strings. *)
Definition includes (xs : list string) (x : string) : bool :=
  bool_decide (x ∈ xs).

(** What [table[key]] evaluates to for an object literal whose own
    properties are numbers. *)
Inductive property : Type :=
  | Own (n : Z)      (* an own property of the literal *)
  | Inherited        (* a member of Object.prototype: a function or object *)
  | Undefined.       (* no such property *)

Definition getProperty (table : gmap string Z) (key : string) : property :=
  match table !! key with
  | Some n => Own n
  | None => if includes objectPrototypeKeys key then Inherited else Undefined
  end.

(** The value held by a variable that starts as a number and is updated by
    [+=] and [-=].  Adding a function or object to a number concatenates
    their string forms, so the variable then holds text that is not a
    numeral ([Text]); subtracting from such text, or taking [Math.min] or
    [Math.max] with it, yields [NaN]. *)
Inductive jsnum : Type :=
  | Num (z : Z)
  | Text
  | NaN.

(** [acc += (table[key] || 0)] *)
Definition addLookup (acc : jsnum) (table : gmap string Z) (key : string) : jsnum :=
  match getProperty table key, acc with
  | Own n, Num z => Num (z + n)          (* Own 0 is falsy, and 0 || 0 is 0 *)
  | Undefined, Num z => Num (z + 0)
  | Inherited, Num _ => Text             (* number + function: concatenation *)
  | Inherited, NaN => Text               (* "NaN" followed by the function text *)
  | _, Text => Text                      (* text + anything stays text *)
  | _, NaN => NaN
  end.

(** [acc -= n] for a number [n]. *)
Definition subNumber (acc : jsnum) (n : Z) : jsnum :=
  match acc with
  | Num z => Num (z - n)
  | Text | NaN => NaN
  end.

(** [acc += n] for a number [n]. *)
Definition addNumber (acc : jsnum) (n : Z) : jsnum :=
  match acc with
  | Num z => Num (z + n)
  | Text => Text
  | NaN => NaN
  end.

(** [Math.max(0, Math.min(100, acc))] *)
Definition clampScore (acc : jsnum) : jsnum :=
  match acc with
  | Num z => Num (Z.max 0 (Z.min 100 z))
  | Text | NaN => NaN
  end.

(** *** Strings

    A string is the sequence of bytes of its UTF-8 encoding.  The letter
    and digit classes below are the ASCII ones, which is all that [\w],
    [\b] and the tables of the scripts distinguish; white space is the
    Unicode white space that [trim] strips. *)

Definition isLower (c : ascii) : bool :=
  let n := N_of_ascii c in (97 <=? n)%N && (n <=? 122)%N.

Definition isUpper (c : ascii) : bool :=
  let n := N_of_ascii c in (65 <=? n)%N && (n <=? 90)%N.

Definition isDigit (c : ascii) : bool :=
  let n := N_of_ascii c in (48 <=? n)%N && (n <=? 57)%N.

(** The class [\w] of a regular expression. *)
Definition isWordChar (c : ascii) : bool :=
  isLower c || isUpper c || isDigit c || bool_decide (c = "_"%char).

Definition toUpperChar (c : ascii) : ascii :=
  if isLower c then ascii_of_N (N_of_ascii c - 32) else c.

Definition toLowerChar (c : ascii) : ascii :=
  if isUpper c then ascii_of_N (N_of_ascii c + 32) else c.

(** [s.toLowerCase()] on the ASCII letters.  The only use compares the
    result with the names json and csv, which no other letter maps into. *)
Fixpoint toLowerCase (s : string) : string :=
  match s with
  | EmptyString => EmptyString
  | String c rest => String (toLowerChar c) (toLowerCase rest)
  end.

(** [s.replace(a, b)] for one-character strings [a] and [b]: only the first
    occurrence is replaced. *)
Fixpoint replaceFirst (a b : ascii) (s : string) : string :=
  match s with
  | EmptyString => EmptyString
  | String c rest =>
      if bool_decide (c = a) then String b rest
      else String c (replaceFirst a b rest)
  end.

(** [s.replace(/\b\w/g, l => l.toUpperCase())]: a word character is matched
    by [\b\w] exactly when the character before it is not a word character
    (or there is none).  [prevIsWord] tells whether the character before
    the rest of the string is a word character. *)
Fixpoint upperAtWordStart (prevIsWord : bool) (s : string) : string :=
  match s with
  | EmptyString => EmptyString
  | String c rest =>
      String (if isWordChar c && negb prevIsWord then toUpperChar c else c)
             (upperAtWordStart (isWordChar c) rest)
  end.

(** [s.includes(c)] for a one-character string [c]. *)
Fixpoint includesChar (c : ascii) (s : string) : bool :=
  match s with
  | EmptyString => false
  | String d rest => bool_decide (d = c) || includesChar c rest
  end.

(** [s.replace(/c/g, by_)] for a character [c]: every occurrence of [c] is
    replaced by the string [by_]. *)
Fixpoint replaceAll (c : ascii) (by_ : string) (s : string) : string :=
  match s with
  | EmptyString => EmptyString
  | String d rest =>
      if bool_decide (d = c) then by_ +:+ replaceAll c by_ rest
      else String d (replaceAll c by_ rest)
  end.

(** [s.split(c)[0]]: the text before the first occurrence of [c], the whole
    string when there is none. *)
Fixpoint beforeFirst (c : ascii) (s : string) : string :=
  match s with
  | EmptyString => EmptyString
  | String d rest =>
      if bool_decide (d = c) then EmptyString else String d (beforeFirst c rest)
  end.

(** White space as [trim] sees it: the code points of [WhiteSpace] and
    [LineTerminator], each in its UTF-8 encoding.  One byte: TAB, LF, VT,
    FF, CR and the space. *)
Definition isWhiteSpace (c : ascii) : bool :=
  let n := N_of_ascii c in ((9 <=? n)%N && (n <=? 13)%N) || (n =? 32)%N.

(** Two bytes: the no-break space U+00A0. *)
Definition isWhiteSpace2 (c1 c2 : ascii) : bool :=
  (N_of_ascii c1 =? 194)%N && (N_of_ascii c2 =? 160)%N.

(** Three bytes: U+1680, U+2000 to U+200A, the line and paragraph
    separators U+2028 and U+2029, U+202F, U+205F, U+3000 and the byte order
    mark U+FEFF. *)
Definition isWhiteSpace3 (c1 c2 c3 : ascii) : bool :=
  let n1 := N_of_ascii c1 in
  let n2 := N_of_ascii c2 in
  let n3 := N_of_ascii c3 in
  ((n1 =? 225)%N && (n2 =? 154)%N && (n3 =? 128)%N)
  || ((n1 =? 226)%N && (n2 =? 128)%N
      && (((128 <=? n3)%N && (n3 <=? 138)%N)
          || (n3 =? 168)%N || (n3 =? 169)%N || (n3 =? 175)%N))
  || ((n1 =? 226)%N && (n2 =? 129)%N && (n3 =? 159)%N)
  || ((n1 =? 227)%N && (n2 =? 128)%N && (n3 =? 128)%N)
  || ((n1 =? 239)%N && (n2 =? 187)%N && (n3 =? 191)%N).

(** The string without its first code point, when that is white space. *)
Definition stripSpace (s : string) : option string :=
  match s with
  | EmptyString => None
  | String c1 rest1 =>
      if isWhiteSpace c1 then Some rest1
      else match rest1 with
           | EmptyString => None
           | String c2 rest2 =>
               if isWhiteSpace2 c1 c2 then Some rest2
               else match rest2 with
                    | EmptyString => None
                    | String c3 rest3 =>
                        if isWhiteSpace3 c1 c2 c3 then Some rest3 else None
                    end
           end
  end.

(** [s.trimStart()] *)
Fixpoint trimStart (s : string) : string :=
  match s with
  | EmptyString => EmptyString
  | String c1 rest1 =>
      if isWhiteSpace c1 then trimStart rest1
      else match rest1 with
           | EmptyString => s
           | String c2 rest2 =>
               if isWhiteSpace2 c1 c2 then trimStart rest2
               else match rest2 with
                    | EmptyString => s
                    | String c3 rest3 =>
                        if isWhiteSpace3 c1 c2 c3 then trimStart rest3 else s
                    end
           end
  end.

(** The string holds white space only. *)
Definition allWhiteSpace (s : string) : bool :=
  bool_decide (trimStart s = EmptyString).

(** [s.trimEnd()]: the string up to the point from which only white space
    follows. *)
Fixpoint trimEnd (s : string) : string :=
  match s with
  | EmptyString => EmptyString
  | String c rest =>
      if allWhiteSpace s then EmptyString else String c (trimEnd rest)
  end.

(** [s.trim()] *)
Definition trim (s : string) : string := trimEnd (trimStart s).

(** [xs.join(sep)] on an array of strings. *)
Fixpoint join (sep : string) (xs : list string) : string :=
  match xs with
  | [] => EmptyString
  | [x] => x
  | x :: rest => x +:+ sep +:+ join sep rest
  end.

(** [String(n).padStart(2, '0')] for an integer [n]. *)
Definition padStart2 (n : Z) : string :=
  let s := pretty n in
  if (String.length s <? 2)%nat then "0" +:+ s else s.

(** *** Dates

    A [Date] holds a time value of at most 8.64e15 milliseconds on either
    side of the epoch; [new Date(value)] with a number beyond that is an
    invalid date, which compares false with every date. *)
Definition maxTimeValue : Z := 8640000000000000.

(** [new Date(value)] for a number [value]: [None] is the invalid date. *)
Definition timeClip (value : Z) : option Z :=
  if Z.abs value <=? maxTimeValue then Some value else None.

(** *** Exceptions

    The result of running a block that may [throw new Error(msg)]. *)
Inductive exn (A : Type) : Type :=
  | Return (a : A)
  | Throw (message : string).
Arguments Return {A} a.
Arguments Throw {A} message.

(** [try { body } catch (error) { handler(error.message) }] *)
Definition tryCatch {A : Type} (body : exn A) (handler : string -> exn A) : exn A :=
  match body with
  | Return a => Return a
  | Throw msg => handler msg
  end.

End JS.

(** ** The form script: class [HealthFeedbackApp] *)

Module HealthFeedbackApp.

Import JS.

Record Demographics : Type := {
  ageGroup : string;
  gender : string;
  location : string
}.

Record Lifestyle : Type := {
  physicalActivity : string;
  dietHabits : string;
  sleepHours : string;
  smoking : string;
  alcohol : string
}.

(** The object built by [collectFormData]. *)
Record FormData : Type := {
  timestamp : Z;
  demographics : Demographics;
  lifestyle : Lifestyle;
  medicalConditions : list string;
  overallHealth : string;
  additionalComments : string
}.

(** One entry of [this.healthThresholds]. *)
Record Threshold : Type := {
  healthy : list string;
  abnormal : list string
}.

Module healthThresholds.
Definition physicalActivity : Threshold :=
  {| healthy := ["moderate"; "active"; "very-active"];
     abnormal := ["sedentary"; "light"] |}%string.
Definition sleepHours : Threshold :=
  {| healthy := ["7-8"; "9-10"];
     abnormal := ["less-than-5"; "5-6"; "more-than-10"] |}%string.
Definition smoking : Threshold :=
  {| healthy := ["never"];
     abnormal := ["former"; "occasional"; "regular"] |}%string.
Definition alcohol : Threshold :=
  {| healthy := ["never"; "rarely"; "moderate"];
     abnormal := ["regular"] |}%string.
Definition overallHealth : Threshold :=
  {| healthy := ["excellent"; "good"];
     abnormal := ["fair"; "poor"] |}%string.
End healthThresholds.

Definition riskConditions : list string :=
  [ "diabetes"; "hypertension"; "heart-disease"; "asthma";
    "arthritis"; "depression"; "anxiety"; "obesity" ]%string.

(** The two counters of [classifyHealth]. *)
Record Counts : Type := {
  healthyCount : Z;
  abnormalCount : Z
}.

(** One [if (healthy.includes(v)) healthyCount++ else if
    (abnormal.includes(v)) abnormalCount++] step. *)
Definition checkField (t : Threshold) (value : string) (c : Counts) : Counts :=
  if includes (healthy t) value then
    {| healthyCount := healthyCount c + 1; abnormalCount := abnormalCount c |}
  else if includes (abnormal t) value then
    {| healthyCount := healthyCount c; abnormalCount := abnormalCount c + 1 |}
  else c.

Definition hasRiskConditions (data : FormData) : bool :=
  existsb (fun condition =>
             includes riskConditions condition
             && negb (bool_decide (condition = "none"%string)))
          (medicalConditions data).

Definition checkMedicalConditions (data : FormData) (c : Counts) : Counts :=
  if hasRiskConditions data then
    {| healthyCount := healthyCount c; abnormalCount := abnormalCount c + 2 |}
  else if includes (medicalConditions data) "none" then
    {| healthyCount := healthyCount c + 1; abnormalCount := abnormalCount c |}
  else c.

(** The counters as they stand just before the classification is chosen. *)
Definition countVotes (data : FormData) : Counts :=
  let c := {| healthyCount := 0; abnormalCount := 0 |} in
  let c := checkField healthThresholds.physicalActivity (physicalActivity (lifestyle data)) c in
  let c := checkField healthThresholds.sleepHours (sleepHours (lifestyle data)) c in
  let c := checkField healthThresholds.smoking (smoking (lifestyle data)) c in
  let c := checkField healthThresholds.alcohol (alcohol (lifestyle data)) c in
  let c := checkField healthThresholds.overallHealth (overallHealth data) c in
  checkMedicalConditions data c.

Definition classifyHealth (data : FormData) : string :=
  let c := countVotes data in
  if healthyCount c <? abnormalCount c then "abnormal"
  else if abnormalCount c <? healthyCount c then "healthy"
  else "moderate".

(** The labels pushed for the lifestyle answers, then one label per risk
    condition that was ticked. *)
Definition titleCase (condition : string) : string :=
  upperAtWordStart false (replaceFirst "-" " " condition).

Definition identifyRiskFactors (data : FormData) : list string :=
  let riskFactors := [] in
  let riskFactors :=
    if String.eqb (physicalActivity (lifestyle data)) "sedentary"
    then riskFactors ++ ["Sedentary lifestyle"%string] else riskFactors in
  let riskFactors :=
    if String.eqb (sleepHours (lifestyle data)) "less-than-5"
       || String.eqb (sleepHours (lifestyle data)) "more-than-10"
    then riskFactors ++ ["Poor sleep patterns"%string] else riskFactors in
  let riskFactors :=
    if String.eqb (smoking (lifestyle data)) "regular"
       || String.eqb (smoking (lifestyle data)) "occasional"
    then riskFactors ++ ["Smoking"%string] else riskFactors in
  let riskFactors :=
    if String.eqb (alcohol (lifestyle data)) "regular"
    then riskFactors ++ ["High alcohol consumption"%string] else riskFactors in
  let riskFactors :=
    if String.eqb (dietHabits (lifestyle data)) "fast-food"
    then riskFactors ++ ["Poor diet habits"%string] else riskFactors in
  let medicalRisks := List.filter (includes riskConditions) (medicalConditions data) in
  riskFactors ++ map titleCase medicalRisks.

Definition activityScores : gmap string Z :=
  {[ "very-active" := 20; "active" := 15; "moderate" := 10; "light" := 5;
     "sedentary" := -10 ]}%string.

Definition sleepScores : gmap string Z :=
  {[ "7-8" := 15; "9-10" := 10; "5-6" := 5; "less-than-5" := -15;
     "more-than-10" := -5 ]}%string.

Definition smokingScores : gmap string Z :=
  {[ "never" := 10; "former" := 5; "occasional" := -5; "regular" := -20 ]}%string.

Definition alcoholScores : gmap string Z :=
  {[ "never" := 5; "rarely" := 5; "moderate" := 0; "regular" := -10 ]}%string.

Definition healthScores : gmap string Z :=
  {[ "excellent" := 20; "good" := 10; "fair" := -5; "poor" := -20 ]}%string.

Definition calculateHealthScore (data : FormData) : jsnum :=
  let score := Num 50 in
  let score := addLookup score activityScores (physicalActivity (lifestyle data)) in
  let score := addLookup score sleepScores (sleepHours (lifestyle data)) in
  let score := addLookup score smokingScores (smoking (lifestyle data)) in
  let score := addLookup score alcoholScores (alcohol (lifestyle data)) in
  let score := addLookup score healthScores (overallHealth data) in
  let riskConditionCount :=
    Z.of_nat (length (List.filter (includes riskConditions) (medicalConditions data))) in
  let score := subNumber score (riskConditionCount * 10) in
  let score :=
    if includes (medicalConditions data) "none" then addNumber score 10 else score in
  clampScore score.

(** The three fields [processHealthData] adds to the form data. *)
Record Processed : Type := {
  healthClassification : string;
  riskFactors : list string;
  healthScore : jsnum
}.

Definition processHealthData (data : FormData) : FormData * Processed :=
  (data, {| healthClassification := classifyHealth data;
            riskFactors := identifyRiskFactors data;
            healthScore := calculateHealthScore data |}).

End HealthFeedbackApp.

(** ** The dashboard script: class [HealthDataManager] *)

Module HealthDataManager.

Import JS.

(** What the script takes from its host: the [Date] library (the local
    time zone included), the text of the members of [Object.prototype], and
    the regular-expression engine running the four [piiPatterns]. *)
Class Host : Type := {
  (** [new Date(t).toISOString()] *)
  toISOString : Z -> string;
  (** [new Date(t).getFullYear()], [getMonth()] and [getDay()] *)
  getFullYear : Z -> Z;
  getMonth : Z -> Z;
  getDay : Z -> Z;
  (** the time value of [new Date(year, 0, 1)] *)
  newYearsDay : Z -> Z;
  (** [String(Object.prototype[key])] for a key of [objectPrototypeKeys] *)
  inheritedToString : string -> string;
  (** whether one of the [piiPatterns] matches the text *)
  piiPatternsTest : string -> bool
}.

(** *** Stored data *)

Record Demographics : Type := {
  ageGroup : string;
  gender : string;
  location : string
}.

Record Lifestyle : Type := {
  physicalActivity : string;
  dietHabits : string;
  sleepHours : string;
  smoking : string;
  alcohol : string
}.

(** The fields of a processed submission other than its timestamp and id. *)
Record Answers : Type := {
  demographics : Demographics;
  lifestyle : Lifestyle;
  medicalConditions : list string;
  overallHealth : string;
  additionalComments : string;
  healthClassification : string;
  riskFactors : list string;
  healthScore : Z
}.

(** The argument of [addSubmission]: its timestamp may be missing. *)
Record SubmissionData : Type := {
  givenTimestamp : option Z;
  givenAnswers : Answers
}.

(** An element of the stored submissions array. *)
Record Submission : Type := {
  timestamp : Z;
  id : string;
  answers : Answers
}.

Record Settings : Type := {
  dataRetentionDays : option Z;
  maxSubmissions : option Z;
  exportFormat : option string;
  anonymizeData : option bool;
  lastCleanup : option Z
}.

Definition defaultSettings : Settings :=
  {| dataRetentionDays := Some 365;
     maxSubmissions := Some 10000;
     exportFormat := Some "json"%string;
     anonymizeData := Some true;
     lastCleanup := None |}.

(** The settings read from the empty object [{}]: every field undefined. *)
Definition noSettings : Settings :=
  {| dataRetentionDays := None;
     maxSubmissions := None;
     exportFormat := None;
     anonymizeData := None;
     lastCleanup := None |}.

(** The value of a counter property: a number, or the text that results
    once a counter was started from an inherited property. *)
Inductive counter : Type :=
  | Count (n : Z)
  | CounterText (s : string).

Module Stats.

Record Demographics : Type := {
  ageGroups : gmap string counter;
  genders : gmap string counter;
  locations : gmap string counter
}.

Record Lifestyle : Type := {
  physicalActivity : gmap string counter;
  dietHabits : gmap string counter;
  sleepHours : gmap string counter;
  smoking : gmap string counter;
  alcohol : gmap string counter
}.

(** The five properties ['0-20'] to ['81-100']. *)
Record Distribution : Type := {
  from0to20 : Z;
  from21to40 : Z;
  from41to60 : Z;
  from61to80 : Z;
  from81to100 : Z
}.

Record HealthScores : Type := {
  average : Z;
  min : Z;
  max : Z;
  distribution : Distribution
}.

Record Trends : Type := {
  daily : gmap string counter;
  weekly : gmap string counter;
  monthly : gmap string counter
}.

Record Statistics : Type := {
  totalSubmissions : Z;
  lastUpdated : Z;
  demographics : Demographics;
  lifestyle : Lifestyle;
  healthClassifications : gmap string counter;
  medicalConditions : gmap string counter;
  healthScores : HealthScores;
  riskFactors : gmap string counter;
  trends : Trends
}.

End Stats.

(** One key of [localStorage]: absent, holding text that [JSON.parse]
    rejects, or holding the JSON text of a value. *)
Inductive item (A : Type) : Type :=
  | Missing
  | Malformed
  | Stored (value : A).
Arguments Missing {A}.
Arguments Malformed {A}.
Arguments Stored {A} value.

(** The three keys of [this.storageKeys]. *)
Record Storage : Type := {
  submissions : item (list Submission);
  statistics : item Stats.Statistics;
  settings : item Settings
}.

(** The object [exportData] assembles, and the result objects of the
    export functions.  A blob is represented by what was written into it:
    the object serialized for a JSON blob, the text for a CSV blob. *)
Module Exporter.

Record Metadata : Type := {
  exportDate : Z;
  totalSubmissions : Z;
  dataVersion : string;
  source : string
}.

Record Data : Type := {
  metadata : Metadata;
  submissions : list Submission;
  statistics : option Stats.Statistics;   (* None: the empty object *)
  settings : Settings
}.

Inductive Blob : Type :=
  | JsonBlob (data : Data)
  | CsvBlob (text : string).

Inductive Result : Type :=
  | Success (blob : Blob) (filename : string) (type : string)
  | Failure (error : string).

(** [undefined] options are [None]. *)
Record Options : Type := {
  includeSubmissions : option bool;
  includeStatistics : option bool;
  includeSettings : option bool
}.

End Exporter.

(** A cell of a CSV row before it is joined: a string or a number. *)
Inductive field : Type :=
  | FString (s : string)
  | FNumber (n : Z).

Section WithHost.

Context `{host : Host}.

Definition createInitialStatistics (now : Z) : Stats.Statistics :=
  {| Stats.totalSubmissions := 0;
     Stats.lastUpdated := now;
     Stats.demographics :=
       {| Stats.ageGroups := ∅; Stats.genders := ∅; Stats.locations := ∅ |};
     Stats.lifestyle :=
       {| Stats.physicalActivity := ∅; Stats.dietHabits := ∅;
          Stats.sleepHours := ∅; Stats.smoking := ∅; Stats.alcohol := ∅ |};
     Stats.healthClassifications :=
       {[ "healthy" := Count 0; "moderate" := Count 0; "abnormal" := Count 0 ]}%string;
     Stats.medicalConditions := ∅;
     Stats.healthScores :=
       {| Stats.average := 0; Stats.min := 100; Stats.max := 0;
          Stats.distribution :=
            {| Stats.from0to20 := 0; Stats.from21to40 := 0; Stats.from41to60 := 0;
               Stats.from61to80 := 0; Stats.from81to100 := 0 |} |};
     Stats.riskFactors := ∅;
     Stats.trends := {| Stats.daily := ∅; Stats.weekly := ∅; Stats.monthly := ∅ |} |}.

Definition getSubmissions (st : Storage) : list Submission :=
  match submissions st with
  | Stored l => l
  | Missing | Malformed => []
  end.

(** [None] stands for the empty object [{}] read when the key is absent. *)
Definition getStatistics (now : Z) (st : Storage) : option Stats.Statistics :=
  match statistics st with
  | Stored s => Some s
  | Missing => None
  | Malformed => Some (createInitialStatistics now)
  end.

Definition getSettings (st : Storage) : Settings :=
  match settings st with
  | Stored s => s
  | Missing => noSettings
  | Malformed => defaultSettings
  end.

(** The validator on the data the form script submits: an object that has
    every field of [SubmissionData] and whose score is the integer that
    [calculateHealthScore] clamps.  On these the [hasOwnProperty] loop
    passes and [typeof healthScore] is the number type; objects of another
    shape and scores that are no integers lie outside [SubmissionData]. *)
Definition validateSubmissionData (data : SubmissionData) : bool :=
  let a := givenAnswers data in
  if bool_decide (ageGroup (demographics a) = ""%string)
     || bool_decide (gender (demographics a) = ""%string) then false
  else if (healthScore a <? 0) || (100 <? healthScore a) then false
  else if negb (includes ["healthy"; "moderate"; "abnormal"]%string
                         (healthClassification a)) then false
  else true.

(** [anonymizeSubmission].  The copy [JSON.parse(JSON.stringify(submission))]
    of a [Submission], whose fields are strings, arrays of strings and an
    integer, has the fields of the original. *)
Definition anonymizeSubmission (submission : Submission) : Submission :=
  let a := answers submission in
  let d := demographics a in
  let location' :=
    if bool_decide (location d = ""%string) then location d
    else trim (beforeFirst "," (location d)) in
  let comments' :=
    if bool_decide (additionalComments a = ""%string) then additionalComments a
    else if piiPatternsTest (additionalComments a)
         then "[Comments removed for privacy]"%string
         else additionalComments a in
  {| timestamp := timestamp submission;
     id := id submission;
     answers :=
       {| demographics :=
            {| ageGroup := ageGroup d; gender := gender d; location := location' |};
          lifestyle := lifestyle a;
          medicalConditions := medicalConditions a;
          overallHealth := overallHealth a;
          additionalComments := comments';
          healthClassification := healthClassification a;
          riskFactors := riskFactors a;
          healthScore := healthScore a |} |}.

(** [obj[key] = (obj[key] || 0) + 1] under the guard [key && key !== ''].
    A key found only on [Object.prototype] reads as a function, to which
    [+ 1] appends the character 1; assigning to [__proto__] stores nothing. *)
Definition incrementCounter (obj : gmap string counter) (key : string)
  : gmap string counter :=
  if bool_decide (key = ""%string) then obj
  else
    match obj !! key with
    | Some (Count n) => <[key := Count (n + 1)]> obj
    | Some (CounterText s) =>
        if bool_decide (s = ""%string) then <[key := Count 1]> obj
        else <[key := CounterText (s +:+ "1")]> obj
    | None =>
        if bool_decide (key = "__proto__"%string) then obj
        else if includes objectPrototypeKeys key
             then <[key := CounterText (inheritedToString key +:+ "1")]> obj
             else <[key := Count 1]> obj
    end.

Definition getWeekKey (date : Z) : string :=
  let year := getFullYear date in
  let startOfYear := newYearsDay year in
  let days := (date - startOfYear) / (24 * 60 * 60 * 1000) in
  let week := (days + getDay startOfYear + 1 + 6) / 7 in   (* Math.ceil(_ / 7) *)
  pretty year +:+ "-W" +:+ padStart2 week.

(** The variables the [forEach] callback of [updateStatistics] updates. *)
Record Tally : Type := {
  stats : Stats.Statistics;
  totalHealthScore : Z;
  minScore : Z;
  maxScore : Z
}.

(** [if (score <= 20) distribution['0-20']++; else if ... else
    distribution['81-100']++] *)
Definition countScore (score : Z) (d : Stats.Distribution) : Stats.Distribution :=
  if score <=? 20 then
    {| Stats.from0to20 := Stats.from0to20 d + 1; Stats.from21to40 := Stats.from21to40 d;
       Stats.from41to60 := Stats.from41to60 d; Stats.from61to80 := Stats.from61to80 d;
       Stats.from81to100 := Stats.from81to100 d |}
  else if score <=? 40 then
    {| Stats.from0to20 := Stats.from0to20 d; Stats.from21to40 := Stats.from21to40 d + 1;
       Stats.from41to60 := Stats.from41to60 d; Stats.from61to80 := Stats.from61to80 d;
       Stats.from81to100 := Stats.from81to100 d |}
  else if score <=? 60 then
    {| Stats.from0to20 := Stats.from0to20 d; Stats.from21to40 := Stats.from21to40 d;
       Stats.from41to60 := Stats.from41to60 d + 1; Stats.from61to80 := Stats.from61to80 d;
       Stats.from81to100 := Stats.from81to100 d |}
  else if score <=? 80 then
    {| Stats.from0to20 := Stats.from0to20 d; Stats.from21to40 := Stats.from21to40 d;
       Stats.from41to60 := Stats.from41to60 d; Stats.from61to80 := Stats.from61to80 d + 1;
       Stats.from81to100 := Stats.from81to100 d |}
  else
    {| Stats.from0to20 := Stats.from0to20 d; Stats.from21to40 := Stats.from21to40 d;
       Stats.from41to60 := Stats.from41to60 d; Stats.from61to80 := Stats.from61to80 d;
       Stats.from81to100 := Stats.from81to100 d + 1 |}.

(** One call of the [forEach] callback.  The fields of a [Submission] are
    all present, its conditions and risk factors are arrays and its
    timestamp is a valid date, so nothing in the callback throws. *)
Definition tallySubmission (t : Tally) (submission : Submission) : Tally :=
  let a := answers submission in
  let s := stats t in
  let location := trim (beforeFirst "," (location (demographics a))) in
  let score := healthScore a in
  let date := timestamp submission in
  let dateKey := beforeFirst "T" (toISOString date) in
  let weekKey := getWeekKey date in
  let monthKey := pretty (getFullYear date) +:+ "-" +:+ padStart2 (getMonth date + 1) in
  {| stats :=
       {| Stats.totalSubmissions := Stats.totalSubmissions s;
          Stats.lastUpdated := Stats.lastUpdated s;
          Stats.demographics :=
            {| Stats.ageGroups :=
                 incrementCounter (Stats.ageGroups (Stats.demographics s))
                                  (ageGroup (demographics a));
               Stats.genders :=
                 incrementCounter (Stats.genders (Stats.demographics s))
                                  (gender (demographics a));
               Stats.locations :=
                 incrementCounter (Stats.locations (Stats.demographics s)) location |};
          Stats.lifestyle :=
            {| Stats.physicalActivity :=
                 incrementCounter (Stats.physicalActivity (Stats.lifestyle s))
                                  (physicalActivity (lifestyle a));
               Stats.dietHabits :=
                 incrementCounter (Stats.dietHabits (Stats.lifestyle s))
                                  (dietHabits (lifestyle a));
               Stats.sleepHours :=
                 incrementCounter (Stats.sleepHours (Stats.lifestyle s))
                                  (sleepHours (lifestyle a));
               Stats.smoking :=
                 incrementCounter (Stats.smoking (Stats.lifestyle s))
                                  (smoking (lifestyle a));
               Stats.alcohol :=
                 incrementCounter (Stats.alcohol (Stats.lifestyle s))
                                  (alcohol (lifestyle a)) |};
          Stats.healthClassifications :=
            incrementCounter (Stats.healthClassifications s) (healthClassification a);
          Stats.medicalConditions :=
            fold_left (fun m condition =>
                         if bool_decide (condition = "none"%string) then m
                         else incrementCounter m condition)
                      (medicalConditions a) (Stats.medicalConditions s);
          Stats.healthScores :=
            {| Stats.average := Stats.average (Stats.healthScores s);
               Stats.min := Stats.min (Stats.healthScores s);
               Stats.max := Stats.max (Stats.healthScores s);
               Stats.distribution :=
                 countScore score (Stats.distribution (Stats.healthScores s)) |};
          Stats.riskFactors :=
            fold_left incrementCounter (riskFactors a) (Stats.riskFactors s);
          Stats.trends :=
            {| Stats.daily := incrementCounter (Stats.daily (Stats.trends s)) dateKey;
               Stats.weekly := incrementCounter (Stats.weekly (Stats.trends s)) weekKey;
               Stats.monthly := incrementCounter (Stats.monthly (Stats.trends s)) monthKey |} |};
     totalHealthScore := totalHealthScore t + score;
     minScore := Z.min (minScore t) score;
     maxScore := Z.max (maxScore t) score |}.

(** [Math.round(total / count)] for integers with [count > 0]: halves round
    up. *)
Definition roundedMean (total count : Z) : Z := (2 * total + count) / (2 * count).

(** The object [updateStatistics] writes under the statistics key. *)
Definition computeStatistics (now : Z) (subs : list Submission) : Stats.Statistics :=
  let initial := createInitialStatistics now in
  let initial :=
    {| Stats.totalSubmissions := Z.of_nat (length subs);
       Stats.lastUpdated := now;
       Stats.demographics := Stats.demographics initial;
       Stats.lifestyle := Stats.lifestyle initial;
       Stats.healthClassifications := Stats.healthClassifications initial;
       Stats.medicalConditions := Stats.medicalConditions initial;
       Stats.healthScores := Stats.healthScores initial;
       Stats.riskFactors := Stats.riskFactors initial;
       Stats.trends := Stats.trends initial |} in
  let t :=
    fold_left tallySubmission subs
      {| stats := initial; totalHealthScore := 0; minScore := 100; maxScore := 0 |} in
  let s := stats t in
  let nonEmpty := 0 <? Z.of_nat (length subs) in
  {| Stats.totalSubmissions := Stats.totalSubmissions s;
     Stats.lastUpdated := Stats.lastUpdated s;
     Stats.demographics := Stats.demographics s;
     Stats.lifestyle := Stats.lifestyle s;
     Stats.healthClassifications := Stats.healthClassifications s;
     Stats.medicalConditions := Stats.medicalConditions s;
     Stats.healthScores :=
       {| Stats.average :=
            if nonEmpty then roundedMean (totalHealthScore t) (Z.of_nat (length subs))
            else 0;
          Stats.min := if nonEmpty then minScore t else 0;
          Stats.max := if nonEmpty then maxScore t else 0;
          Stats.distribution := Stats.distribution (Stats.healthScores s) |};
     Stats.riskFactors := Stats.riskFactors s;
     Stats.trends := Stats.trends s |}.

Definition updateStatistics (now : Z) (subs : list Submission) (st : Storage) : Storage :=
  {| submissions := submissions st;
     statistics := Stored (computeStatistics now subs);
     settings := settings st |}.

(** [submissions.splice(0, deleteCount)]: what is left of the array. *)
Definition spliceFromStart (deleteCount : Z) (subs : list Submission) : list Submission :=
  drop (Z.to_nat deleteCount) subs.

(** The body of the [try] block of [addSubmission], with the identifier
    [generateUniqueId] returns and the instant [new Date()] reads. *)
Definition addSubmissionBody (submissionData : SubmissionData) (uniqueId : string)
    (now : Z) (st : Storage) : exn Storage :=
  if negb (validateSubmissionData submissionData) then Throw "Invalid submission data"
  else
    let subs := getSubmissions st in
    let subs :=
      match maxSubmissions (getSettings st) with
      | Some limit =>
          if limit <=? Z.of_nat (length subs) then
            let excessCount := Z.of_nat (length subs) - limit + 1 in
            spliceFromStart excessCount subs
          else subs
      | None => subs     (* a comparison with undefined is false *)
      end in
    let submission :=
      {| timestamp := default now (givenTimestamp submissionData);
         id := uniqueId;
         answers := givenAnswers submissionData |} in
    let submission :=
      match anonymizeData (getSettings st) with
      | Some true => anonymizeSubmission submission
      | Some false | None => submission
      end in
    let subs := subs ++ [submission] in
    let st := {| submissions := Stored subs;
                 statistics := statistics st;
                 settings := settings st |} in
    Return (updateStatistics now subs st).

(** [addSubmission]: the returned flag and the storage it leaves. *)
Definition addSubmission (submissionData : SubmissionData) (uniqueId : string)
    (now : Z) (st : Storage) : bool * Storage :=
  match addSubmissionBody submissionData uniqueId now st with
  | Return st' => (true, st')
  | Throw _ => (false, st)
  end.

(** The callback of the filter in [cleanupOldData]: [submissionDate >
    cutoffDate].  With an invalid cutoff date ([None]) every comparison is
    false. *)
Definition isRecent (cutoffDate : option Z) (submission : Submission) : bool :=
  match cutoffDate with
  | Some cutoff => cutoff <? timestamp submission
  | None => false
  end.

(** [cleanupOldData] at the instant [now] that [Date.now()] reads.  The
    cutoff [new Date(Date.now() - retentionMs)] is an invalid date when the
    retention is [undefined] (the difference is [NaN]) and when the
    difference lies beyond the range of [Date]. *)
Definition cleanupOldData (now : Z) (st : Storage) : Storage :=
  let settings := getSettings st in
  let subs := getSubmissions st in
  let retentionMs := (fun days => days * 24 * 60 * 60 * 1000) <$> dataRetentionDays settings in
  let cutoffDate :=
    match retentionMs with
    | Some ms => timeClip (now - ms)
    | None => None
    end in
  let filteredSubmissions := List.filter (isRecent cutoffDate) subs in
  if negb (length filteredSubmissions =? length subs)%nat then
    updateStatistics now filteredSubmissions
      {| submissions := Stored filteredSubmissions;
         statistics := statistics st;
         settings := HealthDataManager.settings st |}
  else st.

(** [{ ...currentSettings, ...newSettings }]: a property of the new
    settings replaces the current one, an absent one leaves it. *)
Definition spread {A : Type} (current new : option A) : option A :=
  match new with
  | Some v => Some v
  | None => current
  end.

Definition mergeSettings (current new : Settings) : Settings :=
  {| dataRetentionDays := spread (dataRetentionDays current) (dataRetentionDays new);
     maxSubmissions := spread (maxSubmissions current) (maxSubmissions new);
     exportFormat := spread (exportFormat current) (exportFormat new);
     anonymizeData := spread (anonymizeData current) (anonymizeData new);
     lastCleanup := spread (lastCleanup current) (lastCleanup new) |}.

Definition updateSettings (newSettings : Settings) (st : Storage) : Storage :=
  {| submissions := submissions st;
     statistics := statistics st;
     settings := Stored (mergeSettings (getSettings st) newSettings) |}.

(** [performMaintenanceTasks] at the instant [now]: the cleanup runs when no
    cleanup is recorded or the last one is more than a week old. *)
Definition performMaintenanceTasks (now : Z) (st : Storage) : Storage :=
  let weekInMs := 7 * 24 * 60 * 60 * 1000 in
  let due :=
    match lastCleanup (getSettings st) with
    | None => true
    | Some last => weekInMs <? now - last
    end in
  if due then
    updateSettings
      {| dataRetentionDays := None; maxSubmissions := None; exportFormat := None;
         anonymizeData := None; lastCleanup := Some now |}
      (cleanupOldData now st)
  else st.

(** *** Export *)

Definition quote : ascii := "034"%char.
Definition comma : ascii := ","%char.
Definition newline : string := String "010"%char EmptyString.

Definition headers : list string :=
  [ "Timestamp"; "Age Group"; "Gender"; "Location"; "Physical Activity";
    "Diet Habits"; "Sleep Hours"; "Smoking"; "Alcohol"; "Medical Conditions";
    "Overall Health"; "Health Score"; "Health Classification";
    "Risk Factors" ]%string.

Definition csvRow (submission : Submission) : list field :=
  let a := answers submission in
  [ FString (toISOString (timestamp submission));
    FString (ageGroup (demographics a));
    FString (gender (demographics a));
    FString (location (demographics a));
    FString (physicalActivity (lifestyle a));
    FString (dietHabits (lifestyle a));
    FString (sleepHours (lifestyle a));
    FString (smoking (lifestyle a));
    FString (alcohol (lifestyle a));
    FString (join "; " (medicalConditions a));
    FString (overallHealth a);
    FNumber (healthScore a);
    FString (healthClassification a);
    FString (join "; " (riskFactors a)) ].

(** The callback mapped over the cells of a row, followed by the string
    conversion [join] applies to a cell. *)
Definition csvCell (f : field) : string :=
  match f with
  | FString s =>
      if includesChar comma s
      then String quote (replaceAll quote (String quote (String quote EmptyString)) s)
           +:+ String quote EmptyString
      else s
  | FNumber n => pretty n
  end.

Definition csvLine (row : list field) : string := join "," (map csvCell row).

Definition csvContent (subs : list Submission) : string :=
  join newline (join "," headers :: map (fun s => csvLine (csvRow s)) subs).

Definition exportAsCSV (subs : list Submission) (now : Z) : exn Exporter.Result :=
  tryCatch
    (if (length subs =? 0)%nat then Throw "No data to export"
     else
       Return (Exporter.Success
                 (Exporter.CsvBlob (csvContent subs))
                 ("health-feedback-submissions-" +:+ beforeFirst "T" (toISOString now)
                  +:+ ".csv")
                 "text/csv"))
    (fun message => Return (Exporter.Failure message)).

Definition exportAsJSON (data : Exporter.Data) (now : Z) : exn Exporter.Result :=
  tryCatch
    (Return (Exporter.Success
               (Exporter.JsonBlob data)
               ("health-feedback-data-" +:+ beforeFirst "T" (toISOString now) +:+ ".json")
               "application/json"))
    (fun message => Return (Exporter.Failure message)).

Definition exportData (format : string) (options : Exporter.Options) (now : Z)
    (st : Storage) : exn Exporter.Result :=
  tryCatch
    (let subs := getSubmissions st in
     let statistics := getStatistics now st in
     let settings := getSettings st in
     let exportData :=
       {| Exporter.metadata :=
            {| Exporter.exportDate := now;
               Exporter.totalSubmissions := Z.of_nat (length subs);
               Exporter.dataVersion := "1.0";
               Exporter.source := "Health Feedback Form" |};
          Exporter.submissions :=
            match Exporter.includeSubmissions options with
            | Some false => []
            | Some true | None => subs
            end;
          Exporter.statistics :=
            match Exporter.includeStatistics options with
            | Some false => None
            | Some true | None => statistics
            end;
          Exporter.settings :=
            match Exporter.includeSettings options with
            | Some true => settings
            | Some false | None => noSettings
            end |} in
     let lower := toLowerCase format in
     if String.eqb lower "json" then exportAsJSON exportData now
     else if String.eqb lower "csv" then exportAsCSV subs now
     else Throw ("Unsupported export format: " +:+ format))
    (fun message => Return (Exporter.Failure message)).

(** *** Initialization and clearing *)

(** [initializeStorage]: a key that [getItem] does not find is given its
    default; a key that holds text, well-formed or not, is left alone.  (A
    key holding the empty text reads as absent here and in the getters.) *)
Definition initializeStorage (now : Z) (st : Storage) : Storage :=
  {| submissions :=
       match submissions st with
       | Missing => Stored []
       | present => present
       end;
     statistics :=
       match statistics st with
       | Missing => Stored (createInitialStatistics now)
       | present => present
       end;
     settings :=
       match settings st with
       | Missing => Stored defaultSettings
       | present => present
       end |}.

(** The constructor's [init]. *)
Definition init (now : Z) (st : Storage) : Storage :=
  performMaintenanceTasks now (initializeStorage now st).

(** [clearAllData(confirm)]: the returned flag and the storage it leaves. *)
Definition clearAllData (confirm : bool) (now : Z) (st : Storage) : bool * Storage :=
  if negb confirm then (false, st)
  else
    (true,
     initializeStorage now
       {| submissions := Missing; statistics := Missing; settings := Missing |}).

End WithHost.

End HealthDataManager.

(** ** The dashboard script: class [HealthDashboard]

    The state the dashboard keeps between events, and the computations of
    its event handlers that do not touch the page. *)

Module HealthDashboard.

Import JS HealthDataManager.

(** [s.startsWith(sub)] *)
Fixpoint startsWith (sub s : string) : bool :=
  match sub, s with
  | EmptyString, _ => true
  | String _ _, EmptyString => false
  | String a sub', String b s' => bool_decide (a = b) && startsWith sub' s'
  end.

(** [s.includes(sub)] for strings. *)
Fixpoint includesString (sub s : string) : bool :=
  startsWith sub s
  || match s with
     | EmptyString => false
     | String _ s' => includesString sub s'
     end.

(** [xs.slice(start, end)]: a negative index counts from the end of the
    array, and both indices are clamped to it. *)
Definition slice {A : Type} (start finish : Z) (xs : list A) : list A :=
  let len := Z.of_nat (length xs) in
  let from := if start <? 0 then Z.max (len + start) 0 else Z.min start len in
  let to := if finish <? 0 then Z.max (len + finish) 0 else Z.min finish len in
  take (Z.to_nat (to - from)) (drop (Z.to_nat from) xs).

(** [this.currentFilters]: the empty string selects everything. *)
Record Filters : Type := {
  ageGroupFilter : string;
  genderFilter : string;
  locationFilter : string
}.

Record Dashboard : Type := {
  rawData : list Submission;
  filteredData : list Submission;
  currentFilters : Filters;
  currentPage : Z;
  itemsPerPage : Z
}.

(** The callback of the filter in [applyFilters]. *)
Definition matchesFilters (f : Filters) (item : Submission) : bool :=
  let d := demographics (answers item) in
  let ageMatch :=
    bool_decide (ageGroupFilter f = ""%string) || String.eqb (ageGroup d) (ageGroupFilter f) in
  let genderMatch :=
    bool_decide (genderFilter f = ""%string) || String.eqb (gender d) (genderFilter f) in
  let locationMatch :=
    bool_decide (locationFilter f = ""%string)
    || includesString (locationFilter f) (location d) in
  ageMatch && genderMatch && locationMatch.

Definition applyFilters (d : Dashboard) : Dashboard :=
  {| rawData := rawData d;
     filteredData := List.filter (matchesFilters (currentFilters d)) (rawData d);
     currentFilters := currentFilters d;
     currentPage := 1;
     itemsPerPage := itemsPerPage d |}.

(** The three [change] listeners of the filter controls. *)
Definition setFilters (f : Filters) (d : Dashboard) : Dashboard :=
  applyFilters
    {| rawData := rawData d;
       filteredData := filteredData d;
       currentFilters := f;
       currentPage := currentPage d;
       itemsPerPage := itemsPerPage d |}.

(** The location names [populateFilters] collects, each of them once; the
    script sorts them before it lists them, so their order here is of no
    account. *)
Definition locationNames (items : list Submission) : list string :=
  remove_dups
    (map (fun item => trim (beforeFirst "," (location (demographics (answers item)))))
         items).

(** [Math.ceil(filteredData.length / itemsPerPage)] for a positive page
    size. *)
Definition totalPages (d : Dashboard) : Z :=
  (Z.of_nat (length (filteredData d)) + itemsPerPage d - 1) / itemsPerPage d.

(** The rows [updateDataTable] shows when the current page is [page]. *)
Definition pageData (page : Z) (d : Dashboard) : list Submission :=
  let totalItems := Z.of_nat (length (filteredData d)) in
  let startIndex := (page - 1) * itemsPerPage d in
  let endIndex := Z.min (startIndex + itemsPerPage d) totalItems in
  slice startIndex endIndex (filteredData d).

Definition withPage (page : Z) (d : Dashboard) : Dashboard :=
  {| rawData := rawData d;
     filteredData := filteredData d;
     currentFilters := currentFilters d;
     currentPage := page;
     itemsPerPage := itemsPerPage d |}.

(** The [click] listeners of the two pagination buttons. *)
Definition prevPage (d : Dashboard) : Dashboard :=
  if 1 <? currentPage d then withPage (currentPage d - 1) d else d.

Definition nextPage (d : Dashboard) : Dashboard :=
  if currentPage d <? totalPages d then withPage (currentPage d + 1) d else d.

(** The dashboard as the constructor and [loadData] leave it. *)
Definition loadData (items : list Submission) : Dashboard :=
  {| rawData := items;
     filteredData := items;
     currentFilters :=
       {| ageGroupFilter := ""; genderFilter := ""; locationFilter := "" |};
     currentPage := 1;
     itemsPerPage := 10 |}.

(** The average [updateSummaryStats] shows:
    [Math.round(healthScores.reduce((a, b) => a + b, 0) / healthScores.length)],
    or 0 for no rows. *)
Definition averageHealthScore (d : Dashboard) : Z :=
  let healthScores := map (fun item => healthScore (answers item)) (filteredData d) in
  if 0 <? Z.of_nat (length healthScores)
  then roundedMean (fold_left Z.add healthScores 0) (Z.of_nat (length healthScores))
  else 0.

End HealthDashboard.

(** * Properties of the classifier *)

(** The vote counts as the specification words them: one vote per field
    according to its bucket table, two abnormal votes when some risk tag
    other than none is present, and one healthy vote when the none tag is
    present and no risk tag is. *)
Module ClassifierSpec.

Import JS HealthFeedbackApp.

Definition votingFields (data : FormData) : list (Threshold * string) :=
  [ (healthThresholds.physicalActivity, physicalActivity (lifestyle data));
    (healthThresholds.sleepHours, sleepHours (lifestyle data));
    (healthThresholds.smoking, smoking (lifestyle data));
    (healthThresholds.alcohol, alcohol (lifestyle data));
    (healthThresholds.overallHealth, overallHealth data) ].

Definition riskTagPresent (data : FormData) : Prop :=
  Exists (fun tag => tag ∈ riskConditions ∧ tag ≠ "none"%string) (medicalConditions data).

Definition noneTagPresent (data : FormData) : Prop :=
  "none"%string ∈ medicalConditions data.

Definition votesIf (P : Prop) `{Decision P} (n : Z) : Z := if decide P then n else 0.

Definition healthyVotes (data : FormData) : Z :=
  foldr (fun '(t, value) acc => votesIf (value ∈ healthy t) 1 + acc) 0 (votingFields data)
  + votesIf (noneTagPresent data ∧ ¬ riskTagPresent data) 1.

Definition abnormalVotes (data : FormData) : Z :=
  foldr (fun '(t, value) acc => votesIf (value ∈ abnormal t) 1 + acc) 0 (votingFields data)
  + votesIf (riskTagPresent data) 2.

(** No value sits in both buckets of a table. *)
Definition disjointBuckets (t : Threshold) : Prop :=
  Forall (fun value => value ∉ abnormal t) (healthy t).

Lemma thresholds_disjoint :
  Forall disjointBuckets
    [ healthThresholds.physicalActivity; healthThresholds.sleepHours;
      healthThresholds.smoking; healthThresholds.alcohol;
      healthThresholds.overallHealth ].
Proof.
  repeat constructor; intros Hin; apply (bool_decide_pack _) in Hin;
    vm_compute in Hin; exact Hin.
Qed.

Lemma includes_spec xs x : includes xs x = true <-> x ∈ xs.
Proof.
  unfold includes. rewrite bool_decide_eq_true. reflexivity.
Qed.

Lemma checkField_votes t value c :
  disjointBuckets t ->
  checkField t value c =
    {| healthyCount := healthyCount c + votesIf (value ∈ healthy t) 1;
       abnormalCount := abnormalCount c + votesIf (value ∈ abnormal t) 1 |}.
Proof.
  intros Hdisj. unfold checkField, votesIf, includes.
  destruct c as [h a]; simpl.
  rewrite !bool_decide_decide.
  destruct (decide (value ∈ healthy t)) as [Hh|Hh].
  - unfold disjointBuckets in Hdisj. rewrite Forall_forall in Hdisj.
    destruct (decide (value ∈ abnormal t)) as [Ha|Ha].
    + exfalso. exact (Hdisj value Hh Ha).
    + f_equal; lia.
  - destruct (decide (value ∈ abnormal t)); f_equal; lia.
Qed.

Lemma hasRiskConditions_spec data :
  hasRiskConditions data = true <-> riskTagPresent data.
Proof.
  unfold hasRiskConditions, riskTagPresent.
  rewrite existsb_exists, Exists_exists.
  split; intros (tag & Hin & H); exists tag.
  - apply andb_true_iff in H as [H1 H2].
    apply includes_spec in H1. apply negb_true_iff, bool_decide_eq_false in H2.
    rewrite list_elem_of_In. auto.
  - rewrite list_elem_of_In in Hin. destruct H as [H1 H2]. split; [exact Hin|].
    apply andb_true_iff. split; [apply includes_spec; exact H1|].
    apply negb_true_iff, bool_decide_eq_false. exact H2.
Qed.

Lemma checkMedicalConditions_votes data c :
  checkMedicalConditions data c =
    {| healthyCount :=
         healthyCount c + votesIf (noneTagPresent data ∧ ¬ riskTagPresent data) 1;
       abnormalCount := abnormalCount c + votesIf (riskTagPresent data) 2 |}.
Proof.
  unfold checkMedicalConditions, votesIf, noneTagPresent.
  destruct c as [h a]; simpl.
  destruct (hasRiskConditions data) eqn:Hrisk.
  - apply hasRiskConditions_spec in Hrisk.
    rewrite (decide_True (P := riskTagPresent data)) by exact Hrisk.
    rewrite decide_False by tauto. f_equal; lia.
  - assert (¬ riskTagPresent data) as Hno.
    { intros H. apply hasRiskConditions_spec in H. congruence. }
    rewrite (decide_False (P := riskTagPresent data)) by exact Hno.
    unfold includes. rewrite bool_decide_decide.
    destruct (decide ("none"%string ∈ medicalConditions data)).
    + rewrite decide_True by tauto. f_equal; lia.
    + rewrite decide_False by tauto. f_equal; lia.
Qed.

Lemma countVotes_votes data :
  countVotes data =
    {| healthyCount := healthyVotes data; abnormalCount := abnormalVotes data |}.
Proof.
  pose proof thresholds_disjoint as Hd.
  repeat match type of Hd with
         | Forall _ (_ :: _) => apply Forall_cons in Hd as [? Hd]
         end.
  unfold countVotes, healthyVotes, abnormalVotes, votingFields.
  rewrite checkMedicalConditions_votes.
  rewrite !checkField_votes by assumption.
  simpl. f_equal; lia.
Qed.

(** C1. For every response the classifier returns abnormal when the abnormal
    votes exceed the healthy votes, healthy when the healthy votes exceed the
    abnormal votes and moderate when they are equal, the votes being those
    the specification describes: one per lifestyle or overall-health field
    according to its bucket table, two abnormal votes for the presence of a
    risk tag other than none, and one healthy vote for the none tag when no
    risk tag is present. *)
Theorem classifyHealth_by_votes (data : FormData) :
  healthyCount (countVotes data) = healthyVotes data
  ∧ abnormalCount (countVotes data) = abnormalVotes data
  ∧ (healthyVotes data < abnormalVotes data -> classifyHealth data = "abnormal"%string)
  ∧ (abnormalVotes data < healthyVotes data -> classifyHealth data = "healthy"%string)
  ∧ (healthyVotes data = abnormalVotes data -> classifyHealth data = "moderate"%string).
Proof.
  unfold classifyHealth. rewrite countVotes_votes. simpl.
  split; [reflexivity|]. split; [reflexivity|].
  repeat split; intros H.
  - apply Z.ltb_lt in H. rewrite H. reflexivity.
  - assert (Hge : (healthyVotes data <? abnormalVotes data) = false)
      by (apply Z.ltb_ge; lia).
    rewrite Hge. apply Z.ltb_lt in H. rewrite H. reflexivity.
  - rewrite H, Z.ltb_irrefl. reflexivity.
Qed.

(** Three responses, one for each outcome of the vote. *)
Definition respondent (activity sleep smoke drink health : string)
    (conditions : list string) : FormData :=
  {| timestamp := 0;
     demographics := {| ageGroup := "26-35"; gender := "female"; location := "Pune" |};
     lifestyle :=
       {| physicalActivity := activity; dietHabits := "balanced"; sleepHours := sleep;
          smoking := smoke; alcohol := drink |};
     medicalConditions := conditions;
     overallHealth := health;
     additionalComments := "" |}.

Lemma classifyHealth_by_votes_witness :
  classifyHealth (respondent "active" "7-8" "never" "rarely" "good" ["none"])
  = "healthy"%string.
Proof.
  apply (classifyHealth_by_votes
           (respondent "active" "7-8" "never" "rarely" "good" ["none"])).
  vm_compute. reflexivity.
Defined.

Example classifyHealth_abnormal :
  countVotes (respondent "sedentary" "7-8" "never" "rarely" "fair" ["asthma"; "anxiety"])
  = {| healthyCount := 3; abnormalCount := 4 |}
  ∧ classifyHealth (respondent "sedentary" "7-8" "never" "rarely" "fair" ["asthma"; "anxiety"])
    = "abnormal"%string.
Proof. split; reflexivity. Qed.

Example classifyHealth_moderate :
  countVotes (respondent "light" "5-6" "former" "rarely" "good" ["none"])
  = {| healthyCount := 3; abnormalCount := 3 |}
  ∧ classifyHealth (respondent "light" "5-6" "former" "rarely" "good" ["none"])
    = "moderate"%string
  ∧ classifyHealth (respondent "unknown" "unknown" "unknown" "unknown" "unknown" [])
    = "moderate"%string.
Proof. repeat split. Qed.

(** The response of the worked example of the specification; the fields the
    example leaves open are parameters. *)
Definition exampleResponse (timestamp : Z) (demographics : Demographics)
    (dietHabits additionalComments : string) : FormData :=
  {| timestamp := timestamp;
     demographics := demographics;
     lifestyle :=
       {| physicalActivity := "sedentary";
          dietHabits := dietHabits;
          sleepHours := "7-8";
          smoking := "never";
          alcohol := "never" |};
     medicalConditions := ["none"%string];
     overallHealth := "good";
     additionalComments := additionalComments |}.

Definition exampleResponse0 : FormData :=
  exampleResponse 0 {| ageGroup := "26-35"; gender := "female"; location := "Pune" |}
                  "balanced" "".

(** C3, as amended. The response with sedentary activity, 7-8 hours of
    sleep, never smoking, never alcohol, good overall health and the single
    tag none gets 5 healthy votes and 1 abnormal vote, is classified healthy,
    and scores 50 - 10 + 15 + 10 + 5 + 10 + 10 = 90. *)
Theorem example_votes_and_score (timestamp : Z) (demographics : Demographics)
    (dietHabits additionalComments : string) :
  let data := exampleResponse timestamp demographics dietHabits additionalComments in
  countVotes data = {| healthyCount := 5; abnormalCount := 1 |}
  ∧ classifyHealth data = "healthy"%string
  ∧ calculateHealthScore data = Num (50 - 10 + 15 + 10 + 5 + 10 + 10)
  ∧ calculateHealthScore data = Num 90.
Proof.
  intros data. subst data. unfold exampleResponse.
  split; [|split; [|split]].
  - vm_compute. reflexivity.
  - vm_compute. reflexivity.
  - vm_compute. reflexivity.
  - vm_compute. reflexivity.
Qed.

(** The score of the worked example is 90, not the 100 the specification
    computes for it. *)
Lemma example_score_is_not_100 :
  ¬ (countVotes exampleResponse0 = {| healthyCount := 5; abnormalCount := 1 |}
     ∧ classifyHealth exampleResponse0 = "healthy"%string
     ∧ calculateHealthScore exampleResponse0 = Num 100).
Proof.
  intros (_ & _ & Hscore). vm_compute in Hscore. discriminate Hscore.
Qed.

(** *** Risk factors *)

(** The lifestyle rules in the order of the fields: when a rule applies,
    its label is listed. *)
Definition lifestyleRules (data : FormData) : list (bool * string) :=
  let l := lifestyle data in
  [ (bool_decide (physicalActivity l = "sedentary"), "Sedentary lifestyle");
    (bool_decide (sleepHours l = "less-than-5" ∨ sleepHours l = "more-than-10"),
     "Poor sleep patterns");
    (bool_decide (smoking l = "regular" ∨ smoking l = "occasional"), "Smoking");
    (bool_decide (alcohol l = "regular"), "High alcohol consumption");
    (bool_decide (dietHabits l = "fast-food"), "Poor diet habits") ]%string.

Definition lifestyleLabels (data : FormData) : list string :=
  (List.filter fst (lifestyleRules data)).*2.

(** The ticked conditions that are risk conditions, in submission order. *)
Definition riskTags (data : FormData) : list string :=
  filter (fun tag => tag ∈ riskConditions) (medicalConditions data).

Lemma filter_includes (xs l : list string) :
  List.filter (includes xs) l = filter (fun x => x ∈ xs) l.
Proof.
  induction l as [|x l IH]; [reflexivity|].
  simpl. rewrite filter_cons, IH. unfold includes.
  rewrite bool_decide_decide. destruct (decide (x ∈ xs)); reflexivity.
Qed.

Lemma eqb_bool_decide (a b : string) : String.eqb a b = bool_decide (a = b).
Proof.
  destruct (String.eqb_spec a b) as [Heq|Hne].
  - symmetry. apply bool_decide_eq_true. exact Heq.
  - symmetry. apply bool_decide_eq_false. exact Hne.
Qed.

Lemma orb_bool_decide (P Q : Prop) `{Decision P, Decision Q} :
  bool_decide P || bool_decide Q = bool_decide (P ∨ Q).
Proof.
  rewrite !bool_decide_decide.
  destruct (decide P), (decide Q), (decide (P ∨ Q)); simpl; tauto || reflexivity.
Qed.

Lemma identifyRiskFactors_layout (data : FormData) :
  identifyRiskFactors data = lifestyleLabels data ++ map titleCase (riskTags data).
Proof.
  unfold identifyRiskFactors, lifestyleLabels, lifestyleRules, riskTags.
  rewrite filter_includes. f_equal.
  rewrite !eqb_bool_decide, !orb_bool_decide.
  repeat match goal with
         | |- context [bool_decide ?P] => destruct (bool_decide P)
         end; reflexivity.
Qed.

Lemma titleCase_risk_is_not_smoking (tag : string) :
  tag ∈ riskConditions -> titleCase tag ≠ "Smoking"%string.
Proof.
  assert (Hall : Forall (fun t => titleCase t ≠ "Smoking"%string) riskConditions).
  { repeat constructor; vm_compute; discriminate. }
  rewrite Forall_forall in Hall. exact (Hall tag).
Qed.

(** C4, as amended. The list of risk factors holds the lifestyle labels
    first, in the fixed order of the fields, followed by the title-cased
    ticked conditions that are risk conditions, in submission order; and it
    holds the label Smoking exactly when the smoking answer is regular or
    occasional. *)
Theorem identifyRiskFactors_smoking (data : FormData) :
  identifyRiskFactors data = lifestyleLabels data ++ map titleCase (riskTags data)
  ∧ sublist (lifestyleLabels data)
            [ "Sedentary lifestyle"; "Poor sleep patterns"; "Smoking";
              "High alcohol consumption"; "Poor diet habits" ]%string
  ∧ sublist (riskTags data) (medicalConditions data)
  ∧ ("Smoking"%string ∈ identifyRiskFactors data
     <-> smoking (lifestyle data) = "regular"%string
         ∨ smoking (lifestyle data) = "occasional"%string).
Proof.
  split; [apply identifyRiskFactors_layout|].
  split.
  { unfold lifestyleLabels, lifestyleRules.
    repeat match goal with
           | |- context [bool_decide ?P] => destruct (bool_decide P)
           end; simpl;
      repeat first [ apply sublist_nil | apply sublist_skip; [] | apply sublist_cons; [] | apply sublist_skip ]. }
  split; [apply sublist_filter|].
  rewrite identifyRiskFactors_layout, elem_of_app.
  split.
  - intros [Hl | Hm].
    + unfold lifestyleLabels, lifestyleRules in Hl.
      destruct (decide (smoking (lifestyle data) = "regular"%string
                        ∨ smoking (lifestyle data) = "occasional"%string)) as [Hs|Hs];
        [exact Hs|].
      exfalso.
      rewrite (bool_decide_eq_false_2 _ Hs) in Hl.
      repeat match type of Hl with
             | context [bool_decide ?P] => destruct (bool_decide P)
             end; simpl in Hl;
        apply (bool_decide_pack _) in Hl; vm_compute in Hl; exact Hl.
    + exfalso. apply list_elem_of_fmap in Hm as (tag & Heq & Hin).
      unfold riskTags in Hin. apply list_elem_of_filter in Hin as [Hrisk _].
      exact (titleCase_risk_is_not_smoking tag Hrisk (eq_sym Heq)).
  - intros Hs. left. unfold lifestyleLabels, lifestyleRules.
    rewrite (bool_decide_eq_true_2 _ Hs).
    repeat match goal with
           | |- context [bool_decide ?P] => destruct (bool_decide P)
           end; simpl; apply (bool_decide_unpack _); vm_compute; exact I.
Qed.

(** A former smoker, one status other than never, gets no Smoking label. *)
Definition formerSmoker : FormData :=
  {| timestamp := 0;
     demographics := {| ageGroup := "36-45"; gender := "male"; location := "Pune" |};
     lifestyle :=
       {| physicalActivity := "active"; dietHabits := "balanced"; sleepHours := "7-8";
          smoking := "former"; alcohol := "rarely" |};
     medicalConditions := ["none"%string];
     overallHealth := "good";
     additionalComments := "" |}.

Lemma former_smoker_has_no_smoking_label :
  ¬ ("Smoking"%string ∈ identifyRiskFactors formerSmoker
     <-> smoking (lifestyle formerSmoker) ≠ "never"%string).
Proof.
  intros [_ H].
  assert (Hin : "Smoking"%string ∈ identifyRiskFactors formerSmoker)
    by (apply H; discriminate).
  vm_compute in Hin. inversion Hin.
Qed.

(** *** Health score *)

Definition scoreTables : list (gmap string Z) :=
  [activityScores; sleepScores; smokingScores; alcoholScores; healthScores].

(** The five answers looked up in the score tables, in the order of the
    lookups. *)
Definition scoredAnswers (data : FormData) : list string :=
  [ physicalActivity (lifestyle data); sleepHours (lifestyle data);
    smoking (lifestyle data); alcohol (lifestyle data); overallHealth data ].

(** Some scored answer names a member of [Object.prototype]. *)
Definition hasInheritedKey (data : FormData) : Prop :=
  Exists (fun key => key ∈ objectPrototypeKeys) (scoredAnswers data).

Lemma tables_own_no_inherited_key :
  Forall (fun table => Forall (fun key => table !! key = None) objectPrototypeKeys)
         scoreTables.
Proof.
  repeat constructor.
Qed.

Lemma getProperty_inherited (table : gmap string Z) (key : string) :
  table ∈ scoreTables -> key ∈ objectPrototypeKeys ->
  getProperty table key = Inherited.
Proof.
  intros Ht Hk.
  pose proof tables_own_no_inherited_key as Hown.
  rewrite Forall_forall in Hown. specialize (Hown table Ht).
  rewrite Forall_forall in Hown. specialize (Hown key Hk).
  unfold getProperty. rewrite Hown.
  unfold includes. rewrite bool_decide_eq_true_2 by exact Hk. reflexivity.
Qed.

Lemma getProperty_not_inherited (table : gmap string Z) (key : string) :
  key ∉ objectPrototypeKeys ->
  getProperty table key = Undefined ∨ ∃ n, getProperty table key = Own n.
Proof.
  intros Hk. unfold getProperty.
  destruct (table !! key) as [n|]; [right; exists n; reflexivity|].
  left. unfold includes. rewrite bool_decide_eq_false_2 by exact Hk. reflexivity.
Qed.

Lemma addLookup_number (z : Z) (table : gmap string Z) (key : string) :
  key ∉ objectPrototypeKeys -> ∃ z', addLookup (Num z) table key = Num z'.
Proof.
  intros Hk. unfold addLookup.
  destruct (getProperty_not_inherited table key Hk) as [-> | [n ->]]; eauto.
Qed.

Lemma addLookup_inherited (acc : jsnum) (table : gmap string Z) (key : string) :
  table ∈ scoreTables -> key ∈ objectPrototypeKeys ->
  acc ≠ NaN -> addLookup acc table key = Text.
Proof.
  intros Ht Hk Hacc. unfold addLookup.
  rewrite (getProperty_inherited table key Ht Hk).
  destruct acc; congruence.
Qed.

Lemma addLookup_text (table : gmap string Z) (key : string) :
  addLookup Text table key = Text.
Proof.
  unfold addLookup. destruct (getProperty table key); reflexivity.
Qed.

Lemma addLookup_not_NaN (acc : jsnum) (table : gmap string Z) (key : string) :
  acc ≠ NaN -> addLookup acc table key ≠ NaN.
Proof.
  intros Hacc. unfold addLookup.
  destruct (getProperty table key), acc; congruence.
Qed.

Lemma clampScore_range (z : Z) : 0 <= Z.max 0 (Z.min 100 z) <= 100.
Proof. lia. Qed.

(** Away from the inherited names the score is a number between 0 and 100. *)
Theorem calculateHealthScore_range (data : FormData) :
  ¬ hasInheritedKey data ->
  ∃ z, calculateHealthScore data = Num z ∧ 0 <= z <= 100.
Proof.
  intros Hkeys. unfold hasInheritedKey, scoredAnswers in Hkeys.
  rewrite <- Forall_Exists_neg in Hkeys.
  repeat match type of Hkeys with
         | Forall _ (_ :: _) => apply Forall_cons in Hkeys as [? Hkeys]
         end.
  unfold calculateHealthScore.
  destruct (addLookup_number 50 activityScores (physicalActivity (lifestyle data)))
    as [z1 ->]; [assumption|].
  destruct (addLookup_number z1 sleepScores (sleepHours (lifestyle data)))
    as [z2 ->]; [assumption|].
  destruct (addLookup_number z2 smokingScores (smoking (lifestyle data)))
    as [z3 ->]; [assumption|].
  destruct (addLookup_number z3 alcoholScores (alcohol (lifestyle data)))
    as [z4 ->]; [assumption|].
  destruct (addLookup_number z4 healthScores (overallHealth data))
    as [z5 ->]; [assumption|].
  simpl.
  destruct (includes (medicalConditions data) "none"); simpl;
    eexists; (split; [reflexivity | apply clampScore_range]).
Qed.

Lemma calculateHealthScore_range_witness :
  ∃ z, calculateHealthScore exampleResponse0 = Num z ∧ 0 <= z <= 100.
Proof.
  apply (calculateHealthScore_range exampleResponse0).
  unfold hasInheritedKey. rewrite <- Forall_Exists_neg.
  repeat constructor; intros Hin;
    apply (bool_decide_pack _) in Hin; vm_compute in Hin; exact Hin.
Defined.

(** An answer that names a member of [Object.prototype] turns the score
    into [NaN]. *)
Theorem calculateHealthScore_inherited (data : FormData) :
  hasInheritedKey data -> calculateHealthScore data = NaN.
Proof.
  intros Hkeys. unfold calculateHealthScore.
  set (a1 := addLookup (Num 50) activityScores _).
  set (a2 := addLookup a1 sleepScores _).
  set (a3 := addLookup a2 smokingScores _).
  set (a4 := addLookup a3 alcoholScores _).
  set (a5 := addLookup a4 healthScores _).
  assert (Ha1 : a1 ≠ NaN) by (apply addLookup_not_NaN; discriminate).
  assert (Ha2 : a2 ≠ NaN) by (apply addLookup_not_NaN; exact Ha1).
  assert (Ha3 : a3 ≠ NaN) by (apply addLookup_not_NaN; exact Ha2).
  assert (Ha4 : a4 ≠ NaN) by (apply addLookup_not_NaN; exact Ha3).
  assert (Htext : a5 = Text).
  { unfold hasInheritedKey, scoredAnswers in Hkeys.
    assert (Hin : ∀ t, t ∈ scoreTables <-> In t scoreTables)
      by (intros t; apply list_elem_of_In).
    repeat (apply Exists_cons in Hkeys as [Hk | Hkeys]);
      [ | | | | | inversion Hkeys ].
    - assert (a1 = Text) as H1
        by (apply addLookup_inherited; [apply Hin; simpl; tauto | exact Hk | discriminate]).
      subst a5 a4 a3 a2. rewrite H1, !addLookup_text. reflexivity.
    - assert (a2 = Text) as H2
        by (apply addLookup_inherited; [apply Hin; simpl; tauto | exact Hk | exact Ha1]).
      subst a5 a4 a3. rewrite H2, !addLookup_text. reflexivity.
    - assert (a3 = Text) as H3
        by (apply addLookup_inherited; [apply Hin; simpl; tauto | exact Hk | exact Ha2]).
      subst a5 a4. rewrite H3, !addLookup_text. reflexivity.
    - assert (a4 = Text) as H4
        by (apply addLookup_inherited; [apply Hin; simpl; tauto | exact Hk | exact Ha3]).
      subst a5. rewrite H4, !addLookup_text. reflexivity.
    - apply addLookup_inherited; [apply Hin; simpl; tauto | exact Hk | exact Ha4]. }
  rewrite Htext. simpl.
  destruct (includes (medicalConditions data) "none"); reflexivity.
Qed.

(** A response whose activity answer is the text constructor, a value
    outside the activity table. *)
Definition constructorResponse : FormData :=
  {| timestamp := 0;
     demographics := {| ageGroup := "26-35"; gender := "female"; location := "Pune" |};
     lifestyle :=
       {| physicalActivity := "constructor"; dietHabits := "balanced";
          sleepHours := "7-8"; smoking := "never"; alcohol := "never" |};
     medicalConditions := ["none"%string];
     overallHealth := "good";
     additionalComments := "" |}.

Lemma calculateHealthScore_inherited_witness :
  calculateHealthScore constructorResponse = NaN.
Proof.
  apply (calculateHealthScore_inherited constructorResponse).
  unfold hasInheritedKey. apply Exists_cons_hd.
  apply (bool_decide_unpack _). vm_compute. exact I.
Defined.

(** C2, on the code. For the response whose activity answer is the text
    constructor the score is [NaN], hence no integer between 0 and 100:
    the lookup in the activity table finds the function inherited from
    [Object.prototype], which [|| 0] keeps and [+=] concatenates. *)
Theorem score_of_constructor_is_not_in_range :
  getProperty activityScores (physicalActivity (lifestyle constructorResponse)) = Inherited
  ∧ calculateHealthScore constructorResponse = NaN
  ∧ ¬ ∃ z, calculateHealthScore constructorResponse = Num z ∧ 0 <= z <= 100.
Proof.
  split; [reflexivity|].
  assert (Hnan : calculateHealthScore constructorResponse = NaN) by reflexivity.
  split; [exact Hnan|].
  intros (z & Hz & _). rewrite Hnan in Hz. discriminate Hz.
Qed.

(** *** Further properties of the classifier *)








(** The list of risk factors is empty exactly when no lifestyle rule
    applies and no ticked condition is a risk condition, and it never holds
    more than five lifestyle labels and one label per ticked condition. *)
Theorem identifyRiskFactors_empty (data : FormData) :
  (identifyRiskFactors data = []
   <-> physicalActivity (lifestyle data) ≠ "sedentary"%string
       ∧ sleepHours (lifestyle data) ≠ "less-than-5"%string
       ∧ sleepHours (lifestyle data) ≠ "more-than-10"%string
       ∧ smoking (lifestyle data) ≠ "regular"%string
       ∧ smoking (lifestyle data) ≠ "occasional"%string
       ∧ alcohol (lifestyle data) ≠ "regular"%string
       ∧ dietHabits (lifestyle data) ≠ "fast-food"%string
       ∧ Forall (fun tag => tag ∉ riskConditions) (medicalConditions data))
  ∧ (length (identifyRiskFactors data) <= 5 + length (medicalConditions data))%nat.
Proof.
  rewrite identifyRiskFactors_layout. split.
  - unfold lifestyleLabels, lifestyleRules, riskTags.
    rewrite <- (filter_includes riskConditions).
    assert (Hmed : List.filter (includes riskConditions) (medicalConditions data) = []
                   <-> Forall (fun tag => tag ∉ riskConditions) (medicalConditions data)).
    { induction (medicalConditions data) as [|tag l IH]; simpl.
      - split; [constructor | reflexivity].
      - destruct (includes riskConditions tag) eqn:Htag.
        + apply includes_spec in Htag. split; [discriminate|].
          intros Hall. apply Forall_cons in Hall as [Hnot _]. contradiction.
        + rewrite IH. split.
          * intros Hall. constructor; [|exact Hall].
            intros Hin. apply includes_spec in Hin. congruence.
          * intros Hall. apply Forall_cons in Hall as [_ Hall]. exact Hall. }
    rewrite <- Hmed.
    repeat match goal with
           | |- context [bool_decide ?P] => destruct (bool_decide_reflect P)
           end; simpl;
      (split;
       [ intros Happ; try discriminate Happ;
         apply fmap_nil_inv in Happ; repeat split; tauto
       | intros (? & ? & ? & ? & ? & ? & ? & Hnil); try tauto;
         rewrite Hnil; reflexivity ]).
  - rewrite length_app, !length_fmap.
    unfold lifestyleLabels, lifestyleRules, riskTags.
    pose proof (length_filter (fun tag => tag ∈ riskConditions) (medicalConditions data)).
    rewrite length_fmap.
    match goal with
    | |- (length (List.filter fst ?l) + _ <= _)%nat =>
        pose proof (List.filter_length_le fst l) as Hle; cbn [length] in Hle
    end.
    lia.
Qed.

End ClassifierSpec.

(** * Properties of the data manager *)

Module DataManagerSpec.

Import JS HealthDataManager.

(** A host for the closed examples: the UTC time zone on the instants of
    1 January 1970 (a Thursday), with no PII pattern matching. *)
Definition pad3 (n : Z) : string :=
  let s := pretty n in
  if (String.length s <? 2)%nat then "00" +:+ s
  else if (String.length s <? 3)%nat then "0" +:+ s else s.

#[local] Instance epochDayHost : Host :=
  {| toISOString := fun t =>
       "1970-01-01T" +:+ padStart2 (t / 3600000) +:+ ":"
       +:+ padStart2 (t / 60000 mod 60) +:+ ":" +:+ padStart2 (t / 1000 mod 60)
       +:+ "." +:+ pad3 (t mod 1000) +:+ "Z";
     getFullYear := fun _ => 1970;
     getMonth := fun _ => 0;
     getDay := fun _ => 4;
     newYearsDay := fun _ => 0;
     inheritedToString := fun key =>
       "function "
       +:+ (if String.eqb key "constructor" then "Object"%string else key)
       +:+ "() { [native code] }";
     piiPatternsTest := fun _ => false |}.

Definition sampleAnswers (score : Z) (classification : string) : Answers :=
  {| demographics := {| ageGroup := "26-35"; gender := "female"; location := "Pune" |};
     lifestyle :=
       {| physicalActivity := "active"; dietHabits := "balanced"; sleepHours := "7-8";
          smoking := "never"; alcohol := "rarely" |};
     medicalConditions := ["none"%string];
     overallHealth := "good";
     additionalComments := "";
     healthClassification := classification;
     riskFactors := [];
     healthScore := score |}.

Definition sampleSubmission (timestamp : Z) (id : string) : Submission :=
  {| timestamp := timestamp; id := id; answers := sampleAnswers 85 "healthy" |}.

Definition storageOf (subs : list Submission) (s : Settings) : Storage :=
  {| submissions := Stored subs; statistics := Missing; settings := Stored s |}.

Section Eviction.

Context `{host : Host}.

Lemma getSubmissions_updateStatistics (now : Z) (subs : list Submission) (st : Storage) :
  getSubmissions (updateStatistics now subs st) = getSubmissions st.
Proof. reflexivity. Qed.

Lemma getSubmissions_stored (subs : list Submission) (stats : item Stats.Statistics)
    (s : item Settings) :
  getSubmissions {| submissions := Stored subs; statistics := stats; settings := s |}
  = subs.
Proof. reflexivity. Qed.

Lemma validated_submission_is_stored (data : SubmissionData) (uniqueId : string)
    (now : Z) (st : Storage) :
  validateSubmissionData data = true ->
  ∃ kept stored,
    addSubmission data uniqueId now st
    = (true, updateStatistics now (kept ++ [stored])
               {| submissions := Stored (kept ++ [stored]);
                  statistics := statistics st;
                  settings := settings st |})
    ∧ timestamp stored = default now (givenTimestamp data)
    ∧ id stored = uniqueId
    ∧ kept =
        match maxSubmissions (getSettings st) with
        | Some limit =>
            if limit <=? Z.of_nat (length (getSubmissions st))
            then drop (Z.to_nat (Z.of_nat (length (getSubmissions st)) - limit + 1))
                      (getSubmissions st)
            else getSubmissions st
        | None => getSubmissions st
        end.
Proof.
  intros Hvalid. unfold addSubmission, addSubmissionBody.
  rewrite Hvalid. simpl.
  eexists. eexists. split; [reflexivity|].
  split; [|split; [|reflexivity]].
  - destruct (anonymizeData (getSettings st)) as [[|]|]; reflexivity.
  - destruct (anonymizeData (getSettings st)) as [[|]|]; reflexivity.
Qed.

(** C5, as amended. With a configured maximum of N >= 1 and a collection
    that already holds at least N entries, inserting a valid submission
    succeeds and leaves exactly N entries: the last N - 1 of the old entries,
    in their order, followed by the new one. *)
Theorem addSubmission_evicts_oldest (data : SubmissionData) (uniqueId : string)
    (now : Z) (st : Storage) (N : Z) :
  maxSubmissions (getSettings st) = Some N ->
  1 <= N ->
  N <= Z.of_nat (length (getSubmissions st)) ->
  validateSubmissionData data = true ->
  ∃ stored st',
    addSubmission data uniqueId now st = (true, st')
    ∧ getSubmissions st'
      = drop (length (getSubmissions st) - (Z.to_nat N - 1)) (getSubmissions st)
        ++ [stored]
    ∧ Z.of_nat (length (getSubmissions st')) = N
    ∧ timestamp stored = default now (givenTimestamp data)
    ∧ id stored = uniqueId.
Proof.
  intros Hmax Hpos Hfull Hvalid.
  destruct (validated_submission_is_stored data uniqueId now st Hvalid)
    as (kept & stored & Hadd & Hts & Hid & Hkept).
  rewrite Hmax in Hkept.
  assert (Hle : (N <=? Z.of_nat (length (getSubmissions st))) = true)
    by (apply Z.leb_le; exact Hfull).
  rewrite Hle in Hkept.
  exists stored. eexists. split; [exact Hadd|].
  rewrite getSubmissions_updateStatistics, getSubmissions_stored.
  assert (Hdrop : Z.to_nat (Z.of_nat (length (getSubmissions st)) - N + 1)
                  = (length (getSubmissions st) - (Z.to_nat N - 1))%nat) by lia.
  rewrite Hdrop in Hkept. subst kept.
  split; [reflexivity|]. split; [|split; assumption].
  rewrite length_app, length_drop. simpl. lia.
Qed.

(** A submission that fails validation is rejected and the storage is
    left as it was. *)
Theorem addSubmission_rejects_invalid (data : SubmissionData) (uniqueId : string)
    (now : Z) (st : Storage) :
  validateSubmissionData data = false ->
  addSubmission data uniqueId now st = (false, st).
Proof.
  intros Hinvalid. unfold addSubmission, addSubmissionBody.
  rewrite Hinvalid. reflexivity.
Qed.

(** Below the configured maximum an insertion keeps every old entry and
    appends the new one. *)
Theorem addSubmission_below_maximum (data : SubmissionData) (uniqueId : string)
    (now : Z) (st : Storage) (N : Z) :
  maxSubmissions (getSettings st) = Some N ->
  Z.of_nat (length (getSubmissions st)) < N ->
  validateSubmissionData data = true ->
  ∃ stored st',
    addSubmission data uniqueId now st = (true, st')
    ∧ getSubmissions st' = getSubmissions st ++ [stored]
    ∧ id stored = uniqueId.
Proof.
  intros Hmax Hroom Hvalid.
  destruct (validated_submission_is_stored data uniqueId now st Hvalid)
    as (kept & stored & Hadd & _ & Hid & Hkept).
  rewrite Hmax in Hkept.
  assert (Hgt : (N <=? Z.of_nat (length (getSubmissions st))) = false)
    by (apply Z.leb_gt; exact Hroom).
  rewrite Hgt in Hkept. subst kept.
  exists stored. eexists. split; [exact Hadd|].
  rewrite getSubmissions_updateStatistics, getSubmissions_stored.
  split; [reflexivity | exact Hid].
Qed.

End Eviction.

Lemma addSubmission_rejects_invalid_witness :
  addSubmission {| givenTimestamp := None; givenAnswers := sampleAnswers 101 "healthy" |}
                "id9" 3000 (storageOf [] defaultSettings)
  = (false, storageOf [] defaultSettings).
Proof.
  apply (addSubmission_rejects_invalid
           {| givenTimestamp := None; givenAnswers := sampleAnswers 101 "healthy" |}
           "id9" 3000 (storageOf [] defaultSettings)).
  reflexivity.
Defined.

Lemma addSubmission_below_maximum_witness :
  ∃ stored st',
    addSubmission {| givenTimestamp := None; givenAnswers := sampleAnswers 40 "moderate" |}
                  "id2" 3000 (storageOf [sampleSubmission 1000 "id1"] defaultSettings)
    = (true, st')
    ∧ getSubmissions st' = [sampleSubmission 1000 "id1"] ++ [stored]
    ∧ id stored = "id2"%string.
Proof.
  apply (addSubmission_below_maximum
           {| givenTimestamp := None; givenAnswers := sampleAnswers 40 "moderate" |}
           "id2" 3000 (storageOf [sampleSubmission 1000 "id1"] defaultSettings) 10000).
  - reflexivity.
  - simpl. lia.
  - reflexivity.
Defined.

Lemma addSubmission_evicts_oldest_witness :
  ∃ stored st',
    addSubmission {| givenTimestamp := Some 3000; givenAnswers := sampleAnswers 40 "moderate" |}
                  "id3" 3000
                  (storageOf [sampleSubmission 1000 "id1"; sampleSubmission 2000 "id2"]
                             {| dataRetentionDays := Some 365; maxSubmissions := Some 2;
                                exportFormat := Some "json"%string;
                                anonymizeData := Some true; lastCleanup := None |})
    = (true, st')
    ∧ getSubmissions st' = [sampleSubmission 2000 "id2"] ++ [stored]
    ∧ Z.of_nat (length (getSubmissions st')) = 2
    ∧ timestamp stored = 3000
    ∧ id stored = "id3"%string.
Proof.
  apply (addSubmission_evicts_oldest
           {| givenTimestamp := Some 3000; givenAnswers := sampleAnswers 40 "moderate" |}
           "id3" 3000
           (storageOf [sampleSubmission 1000 "id1"; sampleSubmission 2000 "id2"]
                      {| dataRetentionDays := Some 365; maxSubmissions := Some 2;
                         exportFormat := Some "json"%string;
                         anonymizeData := Some true; lastCleanup := None |})
           2).
  - reflexivity.
  - lia.
  - simpl. lia.
  - reflexivity.
Defined.

(** With a configured maximum of 0 an insertion into a collection of one
    entry leaves one entry, the new one, not 0 entries. *)
Lemma addSubmission_with_maximum_zero :
  let st := storageOf [sampleSubmission 1000 "id1"]
                      {| dataRetentionDays := Some 365; maxSubmissions := Some 0;
                         exportFormat := Some "json"%string;
                         anonymizeData := Some true; lastCleanup := None |} in
  let result := addSubmission
                  {| givenTimestamp := Some 3000;
                     givenAnswers := sampleAnswers 40 "moderate" |}
                  "id3" 3000 st in
  getSubmissions st ≠ []
  ∧ maxSubmissions (getSettings st) = Some 0
  ∧ 0 <= Z.of_nat (length (getSubmissions st))
  ∧ result.1 = true
  ∧ Z.of_nat (length (getSubmissions result.2)) = 1
  ∧ Z.of_nat (length (getSubmissions result.2)) ≠ 0.
Proof.
  simpl. repeat split; try discriminate; lia.
Qed.

(** *** Retention *)

Definition dayInMs : Z := 24 * 60 * 60 * 1000.

(** The age of a submission at the instant of the cleanup. *)
Definition age (now : Z) (submission : Submission) : Z := now - timestamp submission.

Section Retention.

Context `{host : Host}.

Lemma filter_keeps_all {A : Type} (f : A -> bool) (l : list A) :
  length (List.filter f l) = length l -> List.filter f l = l.
Proof.
  induction l as [|x l IH]; [reflexivity|].
  simpl. destruct (f x); simpl; intros Hlen.
  - f_equal. apply IH. lia.
  - pose proof (List.filter_length_le f l). lia.
Qed.

Lemma filter_reflect {A : Type} (f : A -> bool) (P : A -> Prop)
    `{∀ x, Decision (P x)} (l : list A) :
  (∀ x, f x = true <-> P x) -> List.filter f l = filter P l.
Proof.
  intros Hf. induction l as [|x l IH]; [reflexivity|].
  cbn [List.filter]. rewrite filter_cons, IH.
  destruct (f x) eqn:Hx.
  - rewrite decide_True by (apply Hf; exact Hx). reflexivity.
  - rewrite decide_False; [reflexivity|].
    intros HP. apply Hf in HP. congruence.
Qed.

(** The cutoff date of a cleanup at [now] under the given retention. *)
Definition cutoffDate (now : Z) (retention : option Z) : option Z :=
  match retention with
  | Some days => timeClip (now - days * 24 * 60 * 60 * 1000)
  | None => None
  end.

Lemma cleanupOldData_submissions (now : Z) (st : Storage) :
  getSubmissions (cleanupOldData now st)
  = List.filter (isRecent (cutoffDate now (dataRetentionDays (getSettings st))))
                (getSubmissions st).
Proof.
  unfold cleanupOldData. cbn zeta.
  replace (match (fun days => days * 24 * 60 * 60 * 1000)
                   <$> dataRetentionDays (getSettings st) with
           | Some ms => timeClip (now - ms)
           | None => None
           end)
    with (cutoffDate now (dataRetentionDays (getSettings st)))
    by (destruct (dataRetentionDays (getSettings st)); reflexivity).
  set (cutoff := cutoffDate now (dataRetentionDays (getSettings st))).
  destruct (length (List.filter (isRecent cutoff) (getSubmissions st))
            =? length (getSubmissions st))%nat eqn:Hlen; simpl.
  - apply Nat.eqb_eq in Hlen. symmetry. apply filter_keeps_all. exact Hlen.
  - reflexivity.
Qed.

Lemma cleanupOldData_unfold (now : Z) (st : Storage) :
  cleanupOldData now st
  = let filteredSubmissions :=
      List.filter (isRecent (cutoffDate now (dataRetentionDays (getSettings st))))
                  (getSubmissions st) in
    if negb (length filteredSubmissions =? length (getSubmissions st))%nat then
      updateStatistics now filteredSubmissions
        {| submissions := Stored filteredSubmissions;
           statistics := statistics st;
           settings := settings st |}
    else st.
Proof.
  unfold cleanupOldData. destruct (dataRetentionDays (getSettings st)); reflexivity.
Qed.

Lemma cutoffDate_valid (now days : Z) :
  Z.abs (now - days * dayInMs) <= maxTimeValue ->
  cutoffDate now (Some days) = Some (now - days * dayInMs).
Proof.
  intros Hvalid. unfold cutoffDate, timeClip, dayInMs in *.
  replace (now - days * 24 * 60 * 60 * 1000) with (now - days * (24 * 60 * 60 * 1000))
    by lia.
  rewrite (proj2 (Z.leb_le _ _) Hvalid). reflexivity.
Qed.

Lemma cutoffDate_invalid (now days : Z) :
  maxTimeValue < Z.abs (now - days * dayInMs) ->
  cutoffDate now (Some days) = None.
Proof.
  intros Hinvalid. unfold cutoffDate, timeClip, dayInMs in *.
  replace (now - days * 24 * 60 * 60 * 1000) with (now - days * (24 * 60 * 60 * 1000))
    by lia.
  rewrite (proj2 (Z.leb_gt _ _) Hinvalid). reflexivity.
Qed.

Lemma filter_none {A : Type} (l : list A) : List.filter (fun _ => false) l = [].
Proof. induction l as [|x l IH]; [reflexivity | exact IH]. Qed.

Lemma isRecent_age (now days : Z) (submission : Submission) :
  isRecent (Some (now - days * dayInMs)) submission = true
  <-> age now submission < days * dayInMs.
Proof.
  unfold isRecent, age, dayInMs. rewrite Z.ltb_lt. lia.
Qed.

(** C6, as amended. With a retention window of the given number of days
    and a cleanup time from which the window reaches back to a date that
    the Date library can represent, the cleanup keeps exactly the
    submissions whose age is strictly smaller than the window, unchanged and
    in their original order, and so removes exactly those whose age is
    greater than or equal to the window. *)
Theorem cleanupOldData_keeps_recent (now : Z) (st : Storage) (days : Z) :
  dataRetentionDays (getSettings st) = Some days ->
  Z.abs (now - days * dayInMs) <= maxTimeValue ->
  getSubmissions (cleanupOldData now st)
  = filter (fun s => age now s < days * dayInMs) (getSubmissions st)
  ∧ sublist (getSubmissions (cleanupOldData now st)) (getSubmissions st)
  ∧ (∀ s, s ∈ getSubmissions st ->
          (s ∉ getSubmissions (cleanupOldData now st) <-> days * dayInMs <= age now s)).
Proof.
  intros Hdays Hvalid.
  assert (Heq : getSubmissions (cleanupOldData now st)
                = filter (fun s => age now s < days * dayInMs) (getSubmissions st)).
  { rewrite cleanupOldData_submissions, Hdays, (cutoffDate_valid now days Hvalid).
    apply filter_reflect. intros s. apply isRecent_age. }
  split; [exact Heq|]. rewrite Heq.
  split; [apply sublist_filter|].
  intros s Hin. rewrite list_elem_of_filter. split.
  - intros Hnot. destruct (decide (days * dayInMs <= age now s)); [assumption|].
    exfalso. apply Hnot. split; [lia | exact Hin].
  - intros Hold [Hyoung _]. lia.
Qed.

(** When the window reaches back beyond the dates that the Date library can
    represent, the cutoff is an invalid date and the cleanup removes every
    submission, however recent. *)
Theorem cleanupOldData_beyond_date_range (now : Z) (st : Storage) (days : Z) :
  dataRetentionDays (getSettings st) = Some days ->
  maxTimeValue < Z.abs (now - days * dayInMs) ->
  getSubmissions (cleanupOldData now st) = [].
Proof.
  intros Hdays Hinvalid.
  rewrite cleanupOldData_submissions, Hdays, (cutoffDate_invalid now days Hinvalid).
  apply filter_none.
Qed.

(** The maintenance pass is skipped while the recorded cleanup is at most a
    week old. *)
Theorem performMaintenanceTasks_skipped (now last : Z) (st : Storage) :
  lastCleanup (getSettings st) = Some last ->
  now - last <= 7 * dayInMs ->
  performMaintenanceTasks now st = st.
Proof.
  intros Hlast Hrecent. unfold performMaintenanceTasks, dayInMs in *.
  rewrite Hlast.
  assert (Hno : (7 * 24 * 60 * 60 * 1000 <? now - last) = false)
    by (apply Z.ltb_ge; lia).
  rewrite Hno. reflexivity.
Qed.

(** When no cleanup is recorded, or the last one is more than a week old,
    the pass stores what the cleanup keeps and records its own instant as
    the last cleanup. *)
Theorem performMaintenanceTasks_due (now : Z) (st : Storage) :
  (lastCleanup (getSettings st) = None
   ∨ ∃ last, lastCleanup (getSettings st) = Some last ∧ 7 * dayInMs < now - last) ->
  getSubmissions (performMaintenanceTasks now st)
  = getSubmissions (cleanupOldData now st)
  ∧ lastCleanup (getSettings (performMaintenanceTasks now st)) = Some now.
Proof.
  unfold performMaintenanceTasks, dayInMs.
  intros [Hnone | (last & Hlast & Hold)].
  - rewrite Hnone. split; reflexivity.
  - rewrite Hlast.
    assert (Hyes : (7 * 24 * 60 * 60 * 1000 <? now - last) = true)
      by (apply Z.ltb_lt; lia).
    rewrite Hyes. split; reflexivity.
Qed.

End Retention.

Lemma cleanupOldData_keeps_recent_witness :
  getSubmissions
    (cleanupOldData (1000 + 30 * dayInMs)
       (storageOf [sampleSubmission 1000 "id1"; sampleSubmission 2000 "id2"]
                  {| dataRetentionDays := Some 30; maxSubmissions := Some 10000;
                     exportFormat := Some "json"%string;
                     anonymizeData := Some true; lastCleanup := None |}))
  = filter (fun s => age (1000 + 30 * dayInMs) s < 30 * dayInMs)
           [sampleSubmission 1000 "id1"; sampleSubmission 2000 "id2"].
Proof.
  apply (cleanupOldData_keeps_recent
           (1000 + 30 * dayInMs)
           (storageOf [sampleSubmission 1000 "id1"; sampleSubmission 2000 "id2"]
                      {| dataRetentionDays := Some 30; maxSubmissions := Some 10000;
                         exportFormat := Some "json"%string;
                         anonymizeData := Some true; lastCleanup := None |})
           30).
  - reflexivity.
  - vm_compute. discriminate.
Defined.

Lemma cleanupOldData_beyond_date_range_witness :
  getSubmissions
    (cleanupOldData (400 * dayInMs)
       (storageOf [sampleSubmission (399 * dayInMs) "id1"]
                  {| dataRetentionDays := Some 999999999; maxSubmissions := Some 10000;
                     exportFormat := Some "json"%string;
                     anonymizeData := Some true; lastCleanup := None |}))
  = [].
Proof.
  apply (cleanupOldData_beyond_date_range
           (400 * dayInMs)
           (storageOf [sampleSubmission (399 * dayInMs) "id1"]
                      {| dataRetentionDays := Some 999999999; maxSubmissions := Some 10000;
                         exportFormat := Some "json"%string;
                         anonymizeData := Some true; lastCleanup := None |})
           999999999).
  - reflexivity.
  - vm_compute. reflexivity.
Defined.

Lemma performMaintenanceTasks_skipped_witness :
  performMaintenanceTasks (3 * dayInMs)
    (storageOf [sampleSubmission 1000 "id1"]
               {| dataRetentionDays := Some 1; maxSubmissions := Some 10000;
                  exportFormat := Some "json"%string;
                  anonymizeData := Some true; lastCleanup := Some dayInMs |})
  = storageOf [sampleSubmission 1000 "id1"]
              {| dataRetentionDays := Some 1; maxSubmissions := Some 10000;
                 exportFormat := Some "json"%string;
                 anonymizeData := Some true; lastCleanup := Some dayInMs |}.
Proof.
  apply (performMaintenanceTasks_skipped
           (3 * dayInMs) dayInMs
           (storageOf [sampleSubmission 1000 "id1"]
                      {| dataRetentionDays := Some 1; maxSubmissions := Some 10000;
                         exportFormat := Some "json"%string;
                         anonymizeData := Some true; lastCleanup := Some dayInMs |})).
  - reflexivity.
  - vm_compute. discriminate.
Defined.

Lemma performMaintenanceTasks_due_witness :
  getSubmissions
    (performMaintenanceTasks (3 * dayInMs)
       (storageOf [sampleSubmission 1000 "id1"] defaultSettings))
  = getSubmissions
      (cleanupOldData (3 * dayInMs)
         (storageOf [sampleSubmission 1000 "id1"] defaultSettings))
  ∧ lastCleanup
      (getSettings
         (performMaintenanceTasks (3 * dayInMs)
            (storageOf [sampleSubmission 1000 "id1"] defaultSettings)))
    = Some (3 * dayInMs).
Proof.
  apply (performMaintenanceTasks_due
           (3 * dayInMs) (storageOf [sampleSubmission 1000 "id1"] defaultSettings)).
  left. reflexivity.
Defined.

(** A submission whose age equals the retention window is not strictly
    older than the window, and yet the cleanup removes it. *)
Lemma cleanupOldData_removes_at_the_window :
  let now := 1000 + 30 * dayInMs in
  let st := storageOf [sampleSubmission 1000 "id1"]
                      {| dataRetentionDays := Some 30; maxSubmissions := Some 10000;
                         exportFormat := Some "json"%string;
                         anonymizeData := Some true; lastCleanup := None |} in
  ¬ (∀ s, s ∈ getSubmissions st ->
          (s ∉ getSubmissions (cleanupOldData now st) <-> 30 * dayInMs < age now s)).
Proof.
  intros now st Hclaim.
  specialize (Hclaim (sampleSubmission 1000 "id1")).
  assert (Hin : sampleSubmission 1000 "id1" ∈ getSubmissions st) by (simpl; left).
  destruct (Hclaim Hin) as [Hremoved _].
  assert (Hgone : sampleSubmission 1000 "id1" ∉ getSubmissions (cleanupOldData now st)).
  { vm_compute. intros H. inversion H. }
  specialize (Hremoved Hgone). vm_compute in Hremoved. discriminate Hremoved.
Qed.

(** *** The statistics summary *)

(** A summary with its [lastUpdated] stamp replaced. *)
Definition withLastUpdated (stamp : Z) (s : Stats.Statistics) : Stats.Statistics :=
  {| Stats.totalSubmissions := Stats.totalSubmissions s;
     Stats.lastUpdated := stamp;
     Stats.demographics := Stats.demographics s;
     Stats.lifestyle := Stats.lifestyle s;
     Stats.healthClassifications := Stats.healthClassifications s;
     Stats.medicalConditions := Stats.medicalConditions s;
     Stats.healthScores := Stats.healthScores s;
     Stats.riskFactors := Stats.riskFactors s;
     Stats.trends := Stats.trends s |}.

Definition restamp (stamp : Z) (t : Tally) : Tally :=
  {| stats := withLastUpdated stamp (stats t);
     totalHealthScore := totalHealthScore t;
     minScore := minScore t;
     maxScore := maxScore t |}.

(** The sum of the five buckets of the score distribution. *)
Definition distributionTotal (d : Stats.Distribution) : Z :=
  Stats.from0to20 d + Stats.from21to40 d + Stats.from41to60 d
  + Stats.from61to80 d + Stats.from81to100 d.

(** The classification counters holding the three given counts. *)
Definition classificationCounts (healthy moderate abnormal : Z) : gmap string counter :=
  {[ "healthy" := Count healthy; "moderate" := Count moderate;
     "abnormal" := Count abnormal ]}%string.

(** What the write-time validator checks of a stored entry. *)
Definition validEntry (submission : Submission) : Prop :=
  healthClassification (answers submission) ∈ ["healthy"; "moderate"; "abnormal"]%string
  ∧ 0 <= healthScore (answers submission) <= 100.

Section Statistics.

Context `{host : Host}.

Lemma tallySubmission_restamp (stamp : Z) (t : Tally) (submission : Submission) :
  tallySubmission (restamp stamp t) submission
  = restamp stamp (tallySubmission t submission).
Proof. reflexivity. Qed.

Lemma fold_tally_restamp (stamp : Z) (subs : list Submission) (t : Tally) :
  fold_left tallySubmission subs (restamp stamp t)
  = restamp stamp (fold_left tallySubmission subs t).
Proof.
  revert t. induction subs as [|submission subs IH]; intros t; [reflexivity|].
  simpl. rewrite tallySubmission_restamp. apply IH.
Qed.

Lemma computeStatistics_restamp (now1 now2 : Z) (subs : list Submission) :
  computeStatistics now1 subs = withLastUpdated now1 (computeStatistics now2 subs).
Proof.
  unfold computeStatistics.
  lazymatch goal with
  | |- ?run1 = withLastUpdated _ ?run2 =>
      match run1 with
      | context [fold_left tallySubmission subs ?t1] =>
          match run2 with
          | context [fold_left tallySubmission subs ?t2] =>
              change t1 with (restamp now1 t2)
          end
      end
  end.
  rewrite fold_tally_restamp. reflexivity.
Qed.

(** What the aggregator reads besides the collection and the clock: the
    text of an inherited member that a counter key may name, and the local
    day, week and month of each submission. *)
Definition trendKeys (date : Z) : string * string * string :=
  (beforeFirst "T" (toISOString date),
   getWeekKey date,
   pretty (getFullYear date) +:+ "-" +:+ padStart2 (getMonth date + 1)).

End Statistics.

(** Two environments are alike for a collection when their engines print
    the inherited members alike and their time zones put every submission
    of the collection in the same day, week and month. *)
Definition sameEnvironment (host1 host2 : Host) (subs : list Submission) : Prop :=
  (∀ key, @inheritedToString host1 key = @inheritedToString host2 key)
  ∧ Forall (fun submission =>
              @trendKeys host1 (timestamp submission)
              = @trendKeys host2 (timestamp submission)) subs.

Section Environments.

Variables host1 host2 : Host.

Hypothesis sameEngine : ∀ key, @inheritedToString host1 key = @inheritedToString host2 key.

Lemma incrementCounter_host (obj : gmap string counter) (key : string) :
  @incrementCounter host1 obj key = @incrementCounter host2 obj key.
Proof.
  unfold incrementCounter. rewrite sameEngine. reflexivity.
Qed.

Lemma fold_incrementCounter_host (keys : list string) (obj : gmap string counter) :
  fold_left (@incrementCounter host1) keys obj
  = fold_left (@incrementCounter host2) keys obj.
Proof.
  revert obj. induction keys as [|key keys IH]; intros obj; [reflexivity|].
  cbn [fold_left]. rewrite incrementCounter_host. apply IH.
Qed.

Lemma fold_conditions_host (conditions : list string) (obj : gmap string counter) :
  fold_left (fun m condition =>
               if bool_decide (condition = "none"%string) then m
               else @incrementCounter host1 m condition) conditions obj
  = fold_left (fun m condition =>
                 if bool_decide (condition = "none"%string) then m
                 else @incrementCounter host2 m condition) conditions obj.
Proof.
  revert obj. induction conditions as [|condition conditions IH]; intros obj;
    [reflexivity|].
  cbn [fold_left]. rewrite incrementCounter_host. apply IH.
Qed.

Lemma tallySubmission_host (t : Tally) (submission : Submission) :
  @trendKeys host1 (timestamp submission) = @trendKeys host2 (timestamp submission) ->
  @tallySubmission host1 t submission = @tallySubmission host2 t submission.
Proof.
  unfold trendKeys. intros [= Hday Hweek Hmonth].
  unfold tallySubmission. cbn zeta.
  rewrite Hday, Hweek, Hmonth, fold_conditions_host, fold_incrementCounter_host.
  rewrite !incrementCounter_host. reflexivity.
Qed.

Lemma fold_tally_host (subs : list Submission) (t : Tally) :
  Forall (fun submission =>
            @trendKeys host1 (timestamp submission)
            = @trendKeys host2 (timestamp submission)) subs ->
  fold_left (@tallySubmission host1) subs t = fold_left (@tallySubmission host2) subs t.
Proof.
  intros Hsubs. revert t.
  induction Hsubs as [|submission subs Hkeys _ IH]; intros t; [reflexivity|].
  cbn [fold_left]. rewrite (tallySubmission_host t submission Hkeys). apply IH.
Qed.

Lemma computeStatistics_host (now : Z) (subs : list Submission) :
  Forall (fun submission =>
            @trendKeys host1 (timestamp submission)
            = @trendKeys host2 (timestamp submission)) subs ->
  @computeStatistics host1 now subs = @computeStatistics host2 now subs.
Proof.
  intros Hsubs. unfold computeStatistics. cbn zeta.
  rewrite (fold_tally_host subs _ Hsubs). reflexivity.
Qed.

End Environments.

(** C7, as amended. Two runs of the aggregator over the same collection, in
    environments that are alike for it (the same engine and local time
    zone), yield summaries that agree in every field except the
    [lastUpdated] stamp, which holds the instant of each run. *)
Theorem computeStatistics_up_to_stamp (host1 host2 : Host) (now1 now2 : Z)
    (subs : list Submission) :
  sameEnvironment host1 host2 subs ->
  @computeStatistics host1 now1 subs
  = withLastUpdated now1 (@computeStatistics host2 now2 subs)
  ∧ Stats.lastUpdated (@computeStatistics host1 now1 subs) = now1
  ∧ statistics (@updateStatistics host1 now1 subs
                  {| submissions := Stored subs; statistics := Missing;
                     settings := Missing |})
    = Stored (withLastUpdated now1 (@computeStatistics host2 now2 subs)).
Proof.
  intros [Hengine Hzone].
  assert (Hrun : @computeStatistics host1 now1 subs
                 = withLastUpdated now1 (@computeStatistics host2 now2 subs)).
  { rewrite (computeStatistics_host host1 host2 Hengine now1 subs Hzone).
    apply computeStatistics_restamp. }
  split; [exact Hrun|]. split.
  - rewrite Hrun. reflexivity.
  - simpl. rewrite Hrun. reflexivity.
Qed.

Section Totals.

Context `{host : Host}.

Lemma countScore_total (score : Z) (d : Stats.Distribution) :
  distributionTotal (countScore score d) = distributionTotal d + 1.
Proof.
  unfold countScore, distributionTotal.
  repeat match goal with
         | |- context [if ?b then _ else _] => destruct b
         end; simpl; lia.
Qed.

Lemma incrementCounter_classification (h m a : Z) (classification : string) :
  classification ∈ ["healthy"; "moderate"; "abnormal"]%string ->
  ∃ h' m' a',
    incrementCounter (classificationCounts h m a) classification
    = classificationCounts h' m' a'
    ∧ h' + m' + a' = h + m + a + 1.
Proof.
  intros Hin. unfold classificationCounts.
  repeat (apply elem_of_cons in Hin as [-> | Hin]); [ | | | inversion Hin ].
  - exists (h + 1), m, a. split; [|lia].
    unfold incrementCounter. simpl. rewrite lookup_insert_eq.
    apply insert_insert_eq.
  - exists h, (m + 1), a. split; [|lia].
    unfold incrementCounter. simpl.
    rewrite lookup_insert_ne by discriminate. rewrite lookup_insert_eq.
    rewrite (insert_insert_ne _ "moderate"%string "healthy"%string) by discriminate.
    rewrite insert_insert_eq. reflexivity.
  - exists h, m, (a + 1). split; [|lia].
    unfold incrementCounter. simpl.
    rewrite !lookup_insert_ne by discriminate. rewrite lookup_singleton_eq.
    rewrite (insert_insert_ne _ "abnormal"%string "healthy"%string) by discriminate.
    rewrite (insert_insert_ne _ "abnormal"%string "moderate"%string) by discriminate.
    rewrite insert_singleton_eq. reflexivity.
Qed.

(** The loop of [updateStatistics] adds one to the classification counters
    and one to the score buckets for every entry. *)
Lemma fold_tally_counts (subs : list Submission) (t : Tally) (h m a : Z) :
  Forall validEntry subs ->
  Stats.healthClassifications (stats t) = classificationCounts h m a ->
  let t' := fold_left tallySubmission subs t in
  Stats.totalSubmissions (stats t') = Stats.totalSubmissions (stats t)
  ∧ distributionTotal (Stats.distribution (Stats.healthScores (stats t')))
    = distributionTotal (Stats.distribution (Stats.healthScores (stats t)))
      + Z.of_nat (length subs)
  ∧ ∃ h' m' a',
      Stats.healthClassifications (stats t') = classificationCounts h' m' a'
      ∧ h' + m' + a' = h + m + a + Z.of_nat (length subs).
Proof.
  intros Hvalid. revert t h m a.
  induction Hvalid as [|submission subs [Hclass _] _ IH]; intros t h m a Hcounts.
  - simpl. split; [reflexivity|]. split; [lia|].
    exists h, m, a. split; [exact Hcounts | lia].
  - destruct (incrementCounter_classification h m a _ Hclass)
      as (h1 & m1 & a1 & Hstep & Hsum1).
    assert (Hnext : Stats.healthClassifications (stats (tallySubmission t submission))
                    = classificationCounts h1 m1 a1).
    { simpl. rewrite Hcounts. exact Hstep. }
    destruct (IH (tallySubmission t submission) h1 m1 a1 Hnext)
      as (Htotal & Hdist & h' & m' & a' & Hfinal & Hsum).
    cbn zeta. cbn [fold_left].
    split; [rewrite Htotal; reflexivity|].
    split.
    + rewrite Hdist. cbn [tallySubmission stats Stats.healthScores Stats.distribution].
      rewrite countScore_total. rewrite length_cons. lia.
    + exists h', m', a'. split; [exact Hfinal|]. rewrite length_cons. lia.
Qed.

(** C10. For a list of submissions each of which has one of the three
    classifications and a score between 0 and 100, the recomputed summary
    counts as many submissions as the list is long, its three classification
    counters sum to that total, and its five score buckets sum to it too. *)
Theorem computeStatistics_totals (now : Z) (subs : list Submission) :
  Forall validEntry subs ->
  let s := computeStatistics now subs in
  Stats.totalSubmissions s = Z.of_nat (length subs)
  ∧ (∃ healthy moderate abnormal,
        Stats.healthClassifications s = classificationCounts healthy moderate abnormal
        ∧ healthy + moderate + abnormal = Stats.totalSubmissions s)
  ∧ distributionTotal (Stats.distribution (Stats.healthScores s))
    = Stats.totalSubmissions s.
Proof.
  intros Hvalid s. subst s. unfold computeStatistics.
  set (t0 := {| stats := _; totalHealthScore := 0; minScore := 100; maxScore := 0 |}).
  destruct (fold_tally_counts subs t0 0 0 0 Hvalid eq_refl)
    as (Htotal & Hdist & h & m & a & Hcounts & Hsum).
  cbn zeta in Htotal, Hdist, Hcounts.
  cbn [Stats.totalSubmissions Stats.healthClassifications Stats.healthScores
       Stats.distribution].
  rewrite Htotal, Hdist, Hcounts.
  split; [reflexivity|]. split.
  - exists h, m, a. split; [reflexivity|]. subst t0. simpl. lia.
  - subst t0. simpl. unfold distributionTotal. simpl. lia.
Qed.

End Totals.

Lemma computeStatistics_totals_witness :
  Stats.totalSubmissions
    (computeStatistics 5000 [sampleSubmission 1000 "id1"; sampleSubmission 2000 "id2"])
  = 2.
Proof.
  apply (computeStatistics_totals
           5000 [sampleSubmission 1000 "id1"; sampleSubmission 2000 "id2"]).
  repeat constructor; simpl; lia.
Defined.

(** The epoch day as two other time zones see it: one hour east of
    Greenwich the instants up to 23:00 UTC still fall on 1 January 1970;
    one hour west the first hour of the day falls on 31 December 1969 (a
    Wednesday, as was 1 January 1969). *)
Definition utcPlusOneHost : Host :=
  {| toISOString := @toISOString epochDayHost;
     getFullYear := fun _ => 1970;
     getMonth := fun _ => 0;
     getDay := fun _ => 4;
     newYearsDay := fun _ => - 3600000;
     inheritedToString := @inheritedToString epochDayHost;
     piiPatternsTest := fun _ => false |}.

Definition utcMinusOneHost : Host :=
  {| toISOString := @toISOString epochDayHost;
     getFullYear := fun _ => 1969;
     getMonth := fun _ => 11;
     getDay := fun _ => 3;
     newYearsDay := fun _ => - 365 * dayInMs + 3600000;
     inheritedToString := @inheritedToString epochDayHost;
     piiPatternsTest := fun _ => false |}.

Lemma computeStatistics_up_to_stamp_witness :
  @computeStatistics epochDayHost 5000
     [sampleSubmission 1000 "id1"; sampleSubmission 2000 "id2"]
  = withLastUpdated 5000
      (@computeStatistics utcPlusOneHost 9000
         [sampleSubmission 1000 "id1"; sampleSubmission 2000 "id2"]).
Proof.
  apply (computeStatistics_up_to_stamp
           epochDayHost utcPlusOneHost 5000 9000
           [sampleSubmission 1000 "id1"; sampleSubmission 2000 "id2"]).
  split; [intros key; reflexivity|].
  repeat constructor.
Defined.

(** The same collection summarized at the same instant in two time zones:
    a submission of the first hour of 1970 (UTC) is counted under January
    1970 and its first week in one, under December 1969 and its last week
    in the other. *)
Lemma computeStatistics_depends_on_the_time_zone :
  let subs := [sampleSubmission 1000 "id1"] in
  Stats.trends (@computeStatistics epochDayHost 5000 subs)
  = {| Stats.daily := {[ "1970-01-01"%string := Count 1 ]};
       Stats.weekly := {[ "1970-W01"%string := Count 1 ]};
       Stats.monthly := {[ "1970-01"%string := Count 1 ]} |}
  ∧ Stats.trends (@computeStatistics utcMinusOneHost 5000 subs)
    = {| Stats.daily := {[ "1970-01-01"%string := Count 1 ]};
         Stats.weekly := {[ "1969-W53"%string := Count 1 ]};
         Stats.monthly := {[ "1969-12"%string := Count 1 ]} |}
  ∧ @computeStatistics epochDayHost 5000 subs
    ≠ @computeStatistics utcMinusOneHost 5000 subs.
Proof.
  split; [vm_compute; reflexivity|].
  split; [vm_compute; reflexivity|].
  intros Heq.
  apply (f_equal (fun s => Stats.monthly (Stats.trends s) !! "1970-01"%string)) in Heq.
  vm_compute in Heq. discriminate Heq.
Qed.

(** Two runs over the same empty collection at different instants store
    different summaries. *)
Lemma updateStatistics_depends_on_the_clock :
  let st := {| submissions := Stored []; statistics := Missing; settings := Missing |} in
  getSubmissions (updateStatistics 1000 [] st) = getSubmissions (updateStatistics 2000 [] st)
  ∧ statistics (updateStatistics 1000 [] st) ≠ statistics (updateStatistics 2000 [] st).
Proof.
  split; [reflexivity|].
  intros Heq. simpl in Heq. inversion Heq.
Qed.

(** *** Export *)

Section ExportResults.

Context `{host : Host}.

Lemma tryCatch_returns {A : Type} (body : exn A) (recover : string -> A) :
  ∃ a, tryCatch body (fun message => Return (recover message)) = Return a.
Proof.
  destruct body as [a | message]; simpl; eauto.
Qed.

Lemma exportAsCSV_empty (now : Z) :
  exportAsCSV [] now = Return (Exporter.Failure "No data to export").
Proof. reflexivity. Qed.

(** C8. On an empty collection the CSV export returns the failure result
    with the message No data to export, the JSON export succeeds with a
    record whose submissions array is empty, and no export, whatever its
    format, throws past [exportData]. *)
Theorem export_of_empty_collection (options : Exporter.Options) (now : Z) (st : Storage) :
  getSubmissions st = [] ->
  exportData "csv" options now st = Return (Exporter.Failure "No data to export")
  ∧ (∃ data filename,
        exportData "json" options now st
        = Return (Exporter.Success (Exporter.JsonBlob data) filename "application/json")
        ∧ Exporter.submissions data = []
        ∧ Exporter.totalSubmissions (Exporter.metadata data) = 0)
  ∧ (∀ format, ∃ result, exportData format options now st = Return result).
Proof.
  intros Hempty. split; [|split].
  - unfold exportData. rewrite Hempty. simpl. reflexivity.
  - unfold exportData. rewrite Hempty. simpl.
    eexists. eexists. split; [reflexivity|]. simpl.
    split; [|reflexivity].
    destruct (Exporter.includeSubmissions options) as [[|]|]; reflexivity.
  - intros format. unfold exportData. apply tryCatch_returns.
Qed.

(** A string without a comma is emitted as it is, quotes included. *)
Lemma csvCell_without_comma (s : string) :
  includesChar comma s = false -> csvCell (FString s) = s.
Proof.
  intros Hcomma. unfold csvCell. rewrite Hcomma. reflexivity.
Qed.

End ExportResults.

Lemma export_of_empty_collection_witness :
  exportData "csv"
    {| Exporter.includeSubmissions := None; Exporter.includeStatistics := None;
       Exporter.includeSettings := None |}
    5000 {| submissions := Stored []; statistics := Missing; settings := Missing |}
  = Return (Exporter.Failure "No data to export").
Proof.
  apply (export_of_empty_collection
           {| Exporter.includeSubmissions := None; Exporter.includeStatistics := None;
              Exporter.includeSettings := None |}
           5000 {| submissions := Stored []; statistics := Missing; settings := Missing |}).
  reflexivity.
Defined.

(** Two submissions that differ in age group, gender and location: the
    first has quotes but no comma in its age group and gender, the second
    has the comma. *)
Definition withDemographics (d : Demographics) : Submission :=
  {| timestamp := 1000;
     id := "id1";
     answers :=
       {| demographics := d;
          lifestyle :=
            {| physicalActivity := "active"; dietHabits := "balanced";
               sleepHours := "7-8"; smoking := "never"; alcohol := "rarely" |};
          medicalConditions := ["none"%string];
          overallHealth := "good";
          additionalComments := "";
          healthClassification := "healthy";
          riskFactors := [];
          healthScore := 85 |} |}.

Definition quoteMark : string := String quote EmptyString.

Definition quotedWithoutComma : Submission :=
  withDemographics
    {| ageGroup := quoteMark +:+ "x"; gender := "y" +:+ quoteMark; location := "p,q" |}.

Definition quotedWithComma : Submission :=
  withDemographics
    {| ageGroup := "x,y"; gender := quoteMark +:+ "p"; location := "q" +:+ quoteMark |}.

(** C9, on the code. A string cell that holds a quote but no comma is
    emitted without wrapping quotes and without doubling its quote, so the
    table does not determine the field values: two submissions with
    different age group, gender and location produce the same CSV text. *)
Theorem csv_quote_without_comma_is_not_escaped :
  includesChar quote (ageGroup (demographics (answers quotedWithoutComma))) = true
  ∧ csvCell (FString (ageGroup (demographics (answers quotedWithoutComma))))
    = ageGroup (demographics (answers quotedWithoutComma))
  ∧ quotedWithoutComma ≠ quotedWithComma
  ∧ csvContent [quotedWithoutComma] = csvContent [quotedWithComma].
Proof.
  split; [reflexivity|].
  split; [apply csvCell_without_comma; reflexivity|].
  split; [intros Heq; inversion Heq|].
  vm_compute. reflexivity.
Qed.

(** *** Anonymization *)

Lemma beforeFirst_excludes (c : ascii) (s : string) :
  includesChar c (beforeFirst c s) = false.
Proof.
  induction s as [|d s IH]; [reflexivity|].
  simpl. destruct (bool_decide_reflect (d = c)) as [Heq|Hne]; [reflexivity|].
  simpl. rewrite IH. rewrite bool_decide_eq_false_2 by exact Hne. reflexivity.
Qed.

Lemma beforeFirst_without (c : ascii) (s : string) :
  includesChar c s = false -> beforeFirst c s = s.
Proof.
  induction s as [|d s IH]; [reflexivity|].
  simpl. destruct (bool_decide_reflect (d = c)) as [Heq|Hne]; [discriminate|].
  simpl. intros Hrest. rewrite IH by exact Hrest. reflexivity.
Qed.

Lemma append_assoc (s1 s2 s3 : string) : (s1 +:+ s2) +:+ s3 = s1 +:+ (s2 +:+ s3).
Proof.
  induction s1 as [|c s1 IH]; [reflexivity|].
  change (String c ((s1 +:+ s2) +:+ s3) = String c (s1 +:+ (s2 +:+ s3))).
  f_equal. exact IH.
Qed.

Lemma length_append (s1 s2 : string) :
  String.length (s1 +:+ s2) = (String.length s1 + String.length s2)%nat.
Proof.
  induction s1 as [|c s1 IH]; [reflexivity|].
  change (S (String.length (s1 +:+ s2)) = S (String.length s1 + String.length s2)).
  f_equal. exact IH.
Qed.

Lemma includesChar_append (c : ascii) (s1 s2 : string) :
  includesChar c (s1 +:+ s2) = includesChar c s1 || includesChar c s2.
Proof.
  induction s1 as [|d s1 IH]; [reflexivity|].
  change (bool_decide (d = c) || includesChar c (s1 +:+ s2)
          = bool_decide (d = c) || includesChar c s1 || includesChar c s2).
  rewrite IH. apply orb_assoc.
Qed.

(** Induction on the length of a string. *)
Lemma string_length_ind (P : string -> Prop) :
  (∀ s, (∀ t, (String.length t < String.length s)%nat -> P t) -> P s) ->
  ∀ s, P s.
Proof.
  intros Hstep. apply (Wf_nat.induction_ltof1 string String.length). exact Hstep.
Qed.

(** [trimStart] removes one white space after the other. *)
Lemma trimStart_step (s : string) :
  trimStart s = match stripSpace s with
                | Some rest => trimStart rest
                | None => s
                end.
Proof.
  destruct s as [|c1 [|c2 [|c3 rest]]]; cbn [trimStart stripSpace].
  - reflexivity.
  - destruct (isWhiteSpace c1); reflexivity.
  - destruct (isWhiteSpace c1); [reflexivity|].
    destruct (isWhiteSpace2 c1 c2); reflexivity.
  - destruct (isWhiteSpace c1); [reflexivity|].
    destruct (isWhiteSpace2 c1 c2); [reflexivity|].
    destruct (isWhiteSpace3 c1 c2 c3); reflexivity.
Qed.

Lemma stripSpace_cut (s rest : string) :
  stripSpace s = Some rest ->
  ∃ space, s = space +:+ rest ∧ (0 < String.length space)%nat.
Proof.
  destruct s as [|c1 [|c2 [|c3 tail]]]; cbn [stripSpace].
  - discriminate.
  - destruct (isWhiteSpace c1); [|discriminate].
    intros [= <-]. exists (String c1 EmptyString). split; [reflexivity | simpl; lia].
  - destruct (isWhiteSpace c1).
    { intros [= <-]. exists (String c1 EmptyString). split; [reflexivity | simpl; lia]. }
    destruct (isWhiteSpace2 c1 c2); [|discriminate].
    intros [= <-]. exists (String c1 (String c2 EmptyString)).
    split; [reflexivity | simpl; lia].
  - destruct (isWhiteSpace c1).
    { intros [= <-]. exists (String c1 EmptyString). split; [reflexivity | simpl; lia]. }
    destruct (isWhiteSpace2 c1 c2).
    { intros [= <-]. exists (String c1 (String c2 EmptyString)).
      split; [reflexivity | simpl; lia]. }
    destruct (isWhiteSpace3 c1 c2 c3); [|discriminate].
    intros [= <-]. exists (String c1 (String c2 (String c3 EmptyString))).
    split; [reflexivity | simpl; lia].
Qed.

Lemma stripSpace_shorter (s rest : string) :
  stripSpace s = Some rest -> (String.length rest < String.length s)%nat.
Proof.
  intros Hstrip. destruct (stripSpace_cut s rest Hstrip) as (space & -> & Hspace).
  rewrite length_append. lia.
Qed.

(** What follows a string does not change how its first white space is
    read: no white space is the beginning of another. *)
Lemma stripSpace_append (s rest after : string) :
  stripSpace s = Some rest -> stripSpace (s +:+ after) = Some (rest +:+ after).
Proof.
  destruct s as [|c1 [|c2 [|c3 tail]]].
  - discriminate.
  - cbn [stripSpace].
    change (String c1 EmptyString +:+ after) with (String c1 after).
    destruct after as [|a1 [|a2 after]]; cbn [stripSpace];
      destruct (isWhiteSpace c1); try discriminate; intros [= <-]; reflexivity.
  - cbn [stripSpace].
    change (String c1 (String c2 EmptyString) +:+ after)
      with (String c1 (String c2 after)).
    destruct after as [|a1 after]; cbn [stripSpace];
      destruct (isWhiteSpace c1); try (intros [= <-]; reflexivity);
      destruct (isWhiteSpace2 c1 c2); try discriminate; intros [= <-]; reflexivity.
  - cbn [stripSpace].
    change (String c1 (String c2 (String c3 tail)) +:+ after)
      with (String c1 (String c2 (String c3 (tail +:+ after)))).
    cbn [stripSpace].
    destruct (isWhiteSpace c1); [intros [= <-]; reflexivity|].
    destruct (isWhiteSpace2 c1 c2); [intros [= <-]; reflexivity|].
    destruct (isWhiteSpace3 c1 c2 c3); [intros [= <-]; reflexivity | discriminate].
Qed.

(** [trimStart] keeps a suffix of the string ... *)
Lemma trimStart_suffix (s : string) : ∃ spaces, s = spaces +:+ trimStart s.
Proof.
  induction s as [s IH] using string_length_ind.
  rewrite trimStart_step. destruct (stripSpace s) as [rest|] eqn:Hstrip.
  - destruct (stripSpace_cut s rest Hstrip) as (space & Hs & _).
    destruct (IH rest (stripSpace_shorter s rest Hstrip)) as [spaces Hrest].
    exists (space +:+ spaces). rewrite append_assoc, <- Hrest. exact Hs.
  - exists EmptyString. reflexivity.
Qed.

(** ... that does not begin with white space. *)
Lemma trimStart_stripped (s : string) : stripSpace (trimStart s) = None.
Proof.
  induction s as [s IH] using string_length_ind.
  rewrite trimStart_step. destruct (stripSpace s) as [rest|] eqn:Hstrip.
  - apply IH, (stripSpace_shorter s rest Hstrip).
  - exact Hstrip.
Qed.

Lemma trimStart_fixed (s : string) : stripSpace s = None -> trimStart s = s.
Proof.
  intros Hstrip. rewrite trimStart_step, Hstrip. reflexivity.
Qed.

(** White space followed by white space is white space. *)
Lemma trimStart_append_empty (s after : string) :
  trimStart s = EmptyString -> trimStart after = EmptyString ->
  trimStart (s +:+ after) = EmptyString.
Proof.
  induction s as [s IH] using string_length_ind.
  intros Hs Hafter. rewrite trimStart_step in Hs.
  destruct (stripSpace s) as [rest|] eqn:Hstrip.
  - rewrite trimStart_step, (stripSpace_append s rest after Hstrip).
    apply IH; [apply (stripSpace_shorter s rest Hstrip) | exact Hs | exact Hafter].
  - subst s. exact Hafter.
Qed.

(** [trimEnd] keeps a prefix of the string, and what it drops is white
    space. *)
Lemma trimEnd_cut (s : string) :
  ∃ spaces, s = trimEnd s +:+ spaces ∧ trimStart spaces = EmptyString.
Proof.
  induction s as [|c s IH]; [exists EmptyString; split; reflexivity|].
  cbn [trimEnd]. destruct (allWhiteSpace (String c s)) eqn:Hall.
  - exists (String c s). split; [reflexivity|].
    unfold allWhiteSpace in Hall. apply bool_decide_eq_true_1 in Hall. exact Hall.
  - destruct IH as (spaces & Hs & Hspaces). exists spaces. split; [|exact Hspaces].
    change (String c s = String c (trimEnd s +:+ spaces)). f_equal. exact Hs.
Qed.

Lemma trimEnd_prefix (s : string) : ∃ spaces, s = trimEnd s +:+ spaces.
Proof.
  destruct (trimEnd_cut s) as (spaces & Hs & _). exists spaces. exact Hs.
Qed.

Lemma trimEnd_stripped (s : string) :
  stripSpace s = None -> stripSpace (trimEnd s) = None.
Proof.
  intros Hs. destruct (stripSpace (trimEnd s)) as [rest|] eqn:Hstrip; [|reflexivity].
  destruct (trimEnd_prefix s) as [spaces Hcut].
  apply (stripSpace_append _ _ spaces) in Hstrip.
  rewrite <- Hcut, Hs in Hstrip. discriminate.
Qed.

Lemma trimEnd_idempotent (s : string) : trimEnd (trimEnd s) = trimEnd s.
Proof.
  induction s as [|c s IH]; [reflexivity|].
  cbn [trimEnd]. destruct (allWhiteSpace (String c s)) eqn:Hall; [reflexivity|].
  cbn [trimEnd]. destruct (allWhiteSpace (String c (trimEnd s))) eqn:Hkept.
  - exfalso. destruct (trimEnd_cut s) as (spaces & Hs & Hspaces).
    unfold allWhiteSpace in Hall, Hkept.
    apply bool_decide_eq_true_1 in Hkept. apply bool_decide_eq_false_1 in Hall.
    apply Hall. rewrite Hs.
    change (String c (trimEnd s +:+ spaces)) with (String c (trimEnd s) +:+ spaces).
    apply trimStart_append_empty; [exact Hkept | exact Hspaces].
  - f_equal. exact IH.
Qed.

Lemma trim_excludes (c : ascii) (s : string) :
  includesChar c s = false -> includesChar c (trim s) = false.
Proof.
  intros Hs. unfold trim.
  destruct (trimStart_suffix s) as [leading Hleading].
  destruct (trimEnd_prefix (trimStart s)) as [trailing Htrailing].
  rewrite Hleading, Htrailing, !includesChar_append in Hs.
  apply orb_false_iff in Hs as [_ Hs]. apply orb_false_iff in Hs as [Hs _]. exact Hs.
Qed.

(** A trimmed string has no white space left at either end. *)
Lemma trim_idempotent (s : string) : trim (trim s) = trim s.
Proof.
  unfold trim.
  rewrite (trimStart_fixed (trimEnd (trimStart s)))
    by (apply trimEnd_stripped, trimStart_stripped).
  apply trimEnd_idempotent.
Qed.

(** The key under which the statistics count a location. *)
Definition locationKey (location : string) : string :=
  trim (beforeFirst "," location).

(** A location whose city is followed by a no-break space (U+00A0, the
    bytes C2 A0) and a country. *)
Lemma locationKey_no_break_space :
  locationKey ("Pune" +:+ String (ascii_of_N 194) (String (ascii_of_N 160) ", India"))
  = "Pune"%string.
Proof. reflexivity. Qed.

Lemma locationKey_excludes_comma (location : string) :
  includesChar "," (locationKey location) = false.
Proof.
  unfold locationKey. apply trim_excludes, beforeFirst_excludes.
Qed.

Lemma locationKey_idempotent (location : string) :
  locationKey (locationKey location) = locationKey location.
Proof.
  unfold locationKey at 1.
  rewrite beforeFirst_without by apply locationKey_excludes_comma.
  unfold locationKey. apply trim_idempotent.
Qed.

Section Anonymization.

Context `{host : Host}.

Lemma anonymized_location (submission : Submission) :
  location (demographics (answers (anonymizeSubmission submission)))
  = if bool_decide (location (demographics (answers submission)) = ""%string)
    then ""%string
    else locationKey (location (demographics (answers submission))).
Proof.
  unfold anonymizeSubmission. cbn [answers demographics location].
  destruct (bool_decide_reflect (location (demographics (answers submission)) = ""%string))
    as [Hempty|_]; [exact Hempty | reflexivity].
Qed.

(** An anonymized submission keeps of its location only the first
    comma-separated segment, trimmed: the stored location holds no comma and
    no white space, of Unicode at large, at either end.  Its comment is
    kept or replaced by the fixed notice, and every other text field is the
    original one. *)
Theorem anonymizeSubmission_location (submission : Submission) :
  let original := answers submission in
  let anonymized := answers (anonymizeSubmission submission) in
  includesChar "," (location (demographics anonymized)) = false
  ∧ trim (location (demographics anonymized)) = location (demographics anonymized)
  ∧ location (demographics anonymized) = locationKey (location (demographics original))
  ∧ (additionalComments anonymized = additionalComments original
     ∨ additionalComments anonymized = "[Comments removed for privacy]"%string)
  ∧ timestamp (anonymizeSubmission submission) = timestamp submission
  ∧ id (anonymizeSubmission submission) = id submission
  ∧ ageGroup (demographics anonymized) = ageGroup (demographics original)
  ∧ gender (demographics anonymized) = gender (demographics original)
  ∧ lifestyle anonymized = lifestyle original
  ∧ medicalConditions anonymized = medicalConditions original
  ∧ overallHealth anonymized = overallHealth original
  ∧ healthClassification anonymized = healthClassification original
  ∧ riskFactors anonymized = riskFactors original.
Proof.
  cbn zeta. rewrite !anonymized_location.
  assert (Hkey : (if bool_decide (location (demographics (answers submission)) = ""%string)
                  then ""%string
                  else locationKey (location (demographics (answers submission))))
                 = locationKey (location (demographics (answers submission)))).
  { destruct (bool_decide_reflect
                (location (demographics (answers submission)) = ""%string)) as [->|_];
      reflexivity. }
  rewrite Hkey.
  split; [apply locationKey_excludes_comma|].
  split; [unfold locationKey; apply trim_idempotent|].
  split; [reflexivity|].
  split; [|repeat split].
  unfold anonymizeSubmission. cbn [answers additionalComments].
  destruct (bool_decide (additionalComments (answers submission) = ""%string));
    [left; reflexivity|].
  destruct (piiPatternsTest (additionalComments (answers submission)));
    [right | left]; reflexivity.
Qed.

Lemma tallySubmission_anonymized (t : Tally) (submission : Submission) :
  tallySubmission t (anonymizeSubmission submission) = tallySubmission t submission.
Proof.
  assert (Hkey : trim (beforeFirst ","
                         (location (demographics (answers (anonymizeSubmission submission)))))
                 = trim (beforeFirst "," (location (demographics (answers submission))))).
  { rewrite anonymized_location.
    destruct (bool_decide_reflect
                (location (demographics (answers submission)) = ""%string)) as [->|_];
      [reflexivity|].
    apply locationKey_idempotent. }
  unfold tallySubmission. cbn zeta. rewrite Hkey. reflexivity.
Qed.

(** Anonymizing stored submissions changes nothing in the statistics: the
    aggregator counts locations by the very key the anonymizer keeps, and
    reads no comment. *)
Theorem computeStatistics_anonymized (now : Z) (subs : list Submission) :
  computeStatistics now (anonymizeSubmission <$> subs) = computeStatistics now subs.
Proof.
  unfold computeStatistics. rewrite length_fmap.
  match goal with
  | |- context [fold_left tallySubmission (anonymizeSubmission <$> subs) ?t] =>
      assert (Hfold : fold_left tallySubmission (anonymizeSubmission <$> subs) t
                      = fold_left tallySubmission subs t);
      [ generalize t | rewrite Hfold; reflexivity ]
  end.
  induction subs as [|submission subs IH]; intros t; [reflexivity|].
  cbn [fmap list_fmap fold_left]. rewrite tallySubmission_anonymized. apply IH.
Qed.

End Anonymization.

(** *** Invariants of the storage *)

(** The stored statistics are the aggregator's summary of the stored
    submissions, computed at some instant. *)
Definition coherent `{host : Host} (st : Storage) : Prop :=
  ∃ stamp, statistics st = Stored (computeStatistics stamp (getSubmissions st)).

Section StorageInvariants.

Context `{host : Host}.

(** Whatever the collection held before, a successful insertion under a
    configured maximum of N >= 1 leaves at most N entries: a suffix of the
    old entries followed by the new one, which comes last. *)
Theorem addSubmission_within_maximum (data : SubmissionData) (uniqueId : string)
    (now : Z) (st : Storage) (N : Z) :
  maxSubmissions (getSettings st) = Some N ->
  1 <= N ->
  validateSubmissionData data = true ->
  ∃ kept stored st',
    addSubmission data uniqueId now st = (true, st')
    ∧ getSubmissions st' = kept ++ [stored]
    ∧ kept `suffix_of` getSubmissions st
    ∧ Z.of_nat (length (getSubmissions st')) <= N
    ∧ last (getSubmissions st') = Some stored
    ∧ id stored = uniqueId.
Proof.
  intros Hmax Hpos Hvalid.
  destruct (validated_submission_is_stored data uniqueId now st Hvalid)
    as (kept & stored & Hadd & _ & Hid & Hkept).
  rewrite Hmax in Hkept.
  exists kept, stored. eexists. split; [exact Hadd|].
  rewrite getSubmissions_updateStatistics, getSubmissions_stored.
  split; [reflexivity|].
  assert (Hsuffix : kept `suffix_of` getSubmissions st
                    ∧ Z.of_nat (length kept) <= N - 1).
  { destruct (N <=? Z.of_nat (length (getSubmissions st))) eqn:Hfull; subst kept.
    - apply Z.leb_le in Hfull. split; [apply suffix_drop|].
      rewrite length_drop. lia.
    - apply Z.leb_gt in Hfull. split; [reflexivity | lia]. }
  destruct Hsuffix as [Hsuffix Hlen].
  split; [exact Hsuffix|].
  split; [rewrite length_app; simpl; lia|].
  split; [apply last_snoc | exact Hid].
Qed.

Lemma cleanupOldData_settings (now : Z) (st : Storage) :
  settings (cleanupOldData now st) = settings st.
Proof.
  unfold cleanupOldData.
  match goal with |- context [if ?b then _ else _] => destruct b end; reflexivity.
Qed.

Lemma cleanupOldData_coherent (now : Z) (st : Storage) :
  coherent st -> coherent (cleanupOldData now st).
Proof.
  intros Hst. unfold cleanupOldData.
  match goal with |- context [if ?b then _ else _] => destruct b end;
    [|exact Hst].
  exists now. reflexivity.
Qed.

(** The cleanup and the maintenance pass keep the statistics the summary of
    the stored submissions. *)
Theorem maintenance_keeps_coherence (now : Z) (st : Storage) :
  coherent st ->
  coherent (cleanupOldData now st) ∧ coherent (performMaintenanceTasks now st).
Proof.
  intros Hst. split; [apply cleanupOldData_coherent; exact Hst|].
  unfold performMaintenanceTasks.
  match goal with |- context [if ?b then _ else _] => destruct b end;
    [|exact Hst].
  destruct (cleanupOldData_coherent now st Hst) as [stamp Hstamp].
  exists stamp. exact Hstamp.
Qed.

(** Without a retention setting the cleanup deletes every submission. *)
Theorem cleanupOldData_without_retention (now : Z) (st : Storage) :
  dataRetentionDays (getSettings st) = None ->
  getSubmissions (cleanupOldData now st) = [].
Proof.
  intros Hnone. rewrite cleanupOldData_submissions, Hnone. simpl.
  induction (getSubmissions st) as [|submission subs IH]; [reflexivity | exact IH].
Qed.

Lemma filter_isRecent_later (cutoff : Z) (later : option Z) (subs : list Submission) :
  (∀ cutoff', later = Some cutoff' -> cutoff <= cutoff') ->
  List.filter (isRecent later) (List.filter (isRecent (Some cutoff)) subs)
  = List.filter (isRecent later) subs.
Proof.
  intros Hle. induction subs as [|submission subs IH]; [reflexivity|].
  cbn [List.filter].
  destruct (isRecent (Some cutoff) submission) eqn:Hold.
  - cbn [List.filter]. rewrite IH. reflexivity.
  - rewrite IH.
    assert (Hnew : isRecent later submission = false).
    { destruct later as [cutoff'|]; [|reflexivity].
      specialize (Hle cutoff' eq_refl).
      unfold isRecent in *. apply Z.ltb_ge. apply Z.ltb_ge in Hold. lia. }
    rewrite Hnew. reflexivity.
Qed.

Lemma filter_twice {A : Type} (f : A -> bool) (l : list A) :
  List.filter f (List.filter f l) = List.filter f l.
Proof.
  induction l as [|x l IH]; [reflexivity|].
  cbn [List.filter]. destruct (f x) eqn:Hx; [|exact IH].
  cbn [List.filter]. rewrite Hx, IH. reflexivity.
Qed.

(** When the cutoff of a cleanup is a date that the Date library can
    represent, a later cleanup after it leaves the submissions the later
    cleanup alone would leave.  Repeating a cleanup at the same instant
    changes nothing at all. *)
Theorem cleanupOldData_twice (now later : Z) (st : Storage) :
  now <= later ->
  (∀ days, dataRetentionDays (getSettings st) = Some days ->
           Z.abs (now - days * dayInMs) <= maxTimeValue) ->
  getSubmissions (cleanupOldData later (cleanupOldData now st))
  = getSubmissions (cleanupOldData later st)
  ∧ cleanupOldData now (cleanupOldData now st) = cleanupOldData now st.
Proof.
  intros Hlater Hvalid.
  assert (Hsettings : getSettings (cleanupOldData now st) = getSettings st).
  { unfold getSettings. rewrite cleanupOldData_settings. reflexivity. }
  split.
  - rewrite !cleanupOldData_submissions, Hsettings.
    destruct (dataRetentionDays (getSettings st)) as [days|] eqn:Hdays.
    + rewrite (cutoffDate_valid now days (Hvalid days eq_refl)).
      apply filter_isRecent_later. intros cutoff' Hcutoff.
      unfold cutoffDate, timeClip in Hcutoff.
      destruct (Z.abs (later - days * 24 * 60 * 60 * 1000) <=? maxTimeValue);
        [|discriminate].
      injection Hcutoff as <-. unfold dayInMs. lia.
    + cbn [cutoffDate]. apply filter_twice.
  - assert (Hsubs : getSubmissions (cleanupOldData now (cleanupOldData now st))
                    = getSubmissions (cleanupOldData now st)).
    { rewrite (cleanupOldData_submissions now (cleanupOldData now st)), Hsettings.
      rewrite (cleanupOldData_submissions now st). apply filter_twice. }
    rewrite cleanupOldData_submissions, Hsettings in Hsubs.
    remember (cleanupOldData now st) as cleaned eqn:Hcleaned.
    rewrite cleanupOldData_unfold.
    replace (getSettings cleaned) with (getSettings st) by (subst cleaned; symmetry; exact Hsettings).
    cbn zeta. rewrite Hsubs, Nat.eqb_refl. reflexivity.
Qed.

End StorageInvariants.

(** *** What the counters count *)

(** The counter objects that are keyed by one value per submission. *)
Inductive category : Type :=
  | AgeGroups | Genders | Locations
  | PhysicalActivity | DietHabits | SleepHours | Smoking | Alcohol
  | HealthClassifications
  | Daily | Weekly | Monthly.

Definition categoryCounter (c : category) (s : Stats.Statistics) : gmap string counter :=
  match c with
  | AgeGroups => Stats.ageGroups (Stats.demographics s)
  | Genders => Stats.genders (Stats.demographics s)
  | Locations => Stats.locations (Stats.demographics s)
  | PhysicalActivity => Stats.physicalActivity (Stats.lifestyle s)
  | DietHabits => Stats.dietHabits (Stats.lifestyle s)
  | SleepHours => Stats.sleepHours (Stats.lifestyle s)
  | Smoking => Stats.smoking (Stats.lifestyle s)
  | Alcohol => Stats.alcohol (Stats.lifestyle s)
  | HealthClassifications => Stats.healthClassifications s
  | Daily => Stats.daily (Stats.trends s)
  | Weekly => Stats.weekly (Stats.trends s)
  | Monthly => Stats.monthly (Stats.trends s)
  end.

(** The key under which a submission is counted in a category. *)
Definition categoryKey `{host : Host} (c : category) (submission : Submission) : string :=
  let a := answers submission in
  match c with
  | AgeGroups => ageGroup (demographics a)
  | Genders => gender (demographics a)
  | Locations => locationKey (location (demographics a))
  | PhysicalActivity => physicalActivity (lifestyle a)
  | DietHabits => dietHabits (lifestyle a)
  | SleepHours => sleepHours (lifestyle a)
  | Smoking => smoking (lifestyle a)
  | Alcohol => alcohol (lifestyle a)
  | HealthClassifications => healthClassification a
  | Daily => beforeFirst "T" (toISOString (timestamp submission))
  | Weekly => getWeekKey (timestamp submission)
  | Monthly =>
      pretty (getFullYear (timestamp submission)) +:+ "-"
      +:+ padStart2 (getMonth (timestamp submission) + 1)
  end.

(** The number a counter object holds for a key: 0 when it has none. *)
Definition counterValue (obj : gmap string counter) (key : string) : Z :=
  match obj !! key with
  | Some (Count n) => n
  | Some (CounterText _) | None => 0
  end.

(** The property of a key is a number or is absent. *)
Definition numericAt (obj : gmap string counter) (key : string) : Prop :=
  obj !! key = None ∨ ∃ n, obj !! key = Some (Count n).

Section Counters.

Context `{host : Host}.

Lemma incrementCounter_other (obj : gmap string counter) (key other : string) :
  key ≠ other -> incrementCounter obj key !! other = obj !! other.
Proof.
  intros Hne. unfold incrementCounter.
  repeat match goal with
         | |- context [bool_decide ?P] => destruct (bool_decide P)
         | |- context [match ?x with _ => _ end] => destruct x
         end; try reflexivity; apply lookup_insert_ne; exact Hne.
Qed.

Lemma incrementCounter_same (obj : gmap string counter) (key : string) :
  key ≠ ""%string -> key ∉ objectPrototypeKeys -> numericAt obj key ->
  incrementCounter obj key !! key = Some (Count (counterValue obj key + 1)).
Proof.
  intros Hkey Hproto Hnum. unfold incrementCounter, counterValue.
  rewrite bool_decide_eq_false_2 by exact Hkey.
  destruct Hnum as [Hnone | [n Hn]].
  - rewrite Hnone.
    assert (Hnot : key ≠ "__proto__"%string).
    { intros ->. apply Hproto. apply (bool_decide_unpack _). vm_compute. exact I. }
    rewrite bool_decide_eq_false_2 by exact Hnot.
    unfold includes. rewrite bool_decide_eq_false_2 by exact Hproto.
    apply lookup_insert_eq.
  - rewrite Hn. apply lookup_insert_eq.
Qed.

Lemma fold_incrementCounter (keys : list string) (obj : gmap string counter)
    (key : string) :
  key ≠ ""%string -> key ∉ objectPrototypeKeys -> numericAt obj key ->
  let occurrences := Z.of_nat (length (filter (fun k => k = key) keys)) in
  numericAt (fold_left incrementCounter keys obj) key
  ∧ counterValue (fold_left incrementCounter keys obj) key
    = counterValue obj key + occurrences
  ∧ (occurrences = 0 -> fold_left incrementCounter keys obj !! key = obj !! key).
Proof.
  intros Hkey Hproto. revert obj.
  induction keys as [|k keys IH]; intros obj Hnum; cbn zeta.
  - simpl. split; [exact Hnum|]. split; [lia | reflexivity].
  - cbn [fold_left]. rewrite filter_cons.
    destruct (decide (k = key)) as [->|Hne].
    + pose proof (incrementCounter_same obj key Hkey Hproto Hnum) as Hstep.
      assert (Hnum' : numericAt (incrementCounter obj key) key)
        by (right; eexists; exact Hstep).
      destruct (IH _ Hnum') as (Hn & Hv & _).
      split; [exact Hn|]. split.
      * rewrite Hv. unfold counterValue at 1. rewrite Hstep.
        rewrite length_cons. lia.
      * rewrite length_cons. lia.
    + pose proof (incrementCounter_other obj k key Hne) as Hstep.
      assert (Hnum' : numericAt (incrementCounter obj k) key)
        by (unfold numericAt; rewrite Hstep; exact Hnum).
      destruct (IH _ Hnum') as (Hn & Hv & Hz).
      split; [exact Hn|]. split.
      * rewrite Hv. unfold counterValue. rewrite Hstep. reflexivity.
      * intros Hocc. rewrite (Hz Hocc). exact Hstep.
Qed.

Lemma fold_tally_category (c : category) (subs : list Submission) (t : Tally) :
  categoryCounter c (stats (fold_left tallySubmission subs t))
  = fold_left incrementCounter (categoryKey c <$> subs) (categoryCounter c (stats t)).
Proof.
  revert t. induction subs as [|submission subs IH]; intros t; [reflexivity|].
  cbn [fold_left fmap list_fmap]. rewrite IH. f_equal.
  destruct c; reflexivity.
Qed.

Lemma initial_counters_numeric (c : category) (now : Z) (key : string) :
  numericAt (categoryCounter c (createInitialStatistics now)) key
  ∧ counterValue (categoryCounter c (createInitialStatistics now)) key = 0.
Proof.
  unfold numericAt, counterValue.
  destruct c; cbn [categoryCounter createInitialStatistics Stats.demographics
                   Stats.lifestyle Stats.trends Stats.healthClassifications
                   Stats.ageGroups Stats.genders Stats.locations
                   Stats.physicalActivity Stats.dietHabits Stats.sleepHours
                   Stats.smoking Stats.alcohol Stats.daily Stats.weekly Stats.monthly];
    try (rewrite lookup_empty; split; [left|]; reflexivity).
  destruct (decide (key = "healthy"%string)) as [->|H1];
    [split; [right; eexists|]; reflexivity|].
  destruct (decide (key = "moderate"%string)) as [->|H2];
    [split; [right; eexists|]; reflexivity|].
  destruct (decide (key = "abnormal"%string)) as [->|H3];
    [split; [right; eexists|]; reflexivity|].
  rewrite !lookup_insert_ne by congruence.
  rewrite lookup_singleton_ne by congruence.
  split; [left|]; reflexivity.
Qed.

(** In every category the recomputed summary holds, for a key that is not
    empty and names no member of [Object.prototype], the number of
    submissions counted under that key: a number, never text, and no
    property at all for a key that does not occur (outside the three
    classifications, which start at 0). *)
Theorem category_counts (c : category) (now : Z) (subs : list Submission)
    (key : string) :
  key ≠ ""%string ->
  key ∉ objectPrototypeKeys ->
  let obj := categoryCounter c (computeStatistics now subs) in
  let occurrences :=
    Z.of_nat (length (filter (fun submission => categoryKey c submission = key) subs)) in
  numericAt obj key
  ∧ counterValue obj key = occurrences
  ∧ (0 < occurrences -> obj !! key = Some (Count occurrences)).
Proof.
  intros Hkey Hproto. cbn zeta.
  assert (Hobj : categoryCounter c (computeStatistics now subs)
                 = fold_left incrementCounter (categoryKey c <$> subs)
                     (categoryCounter c (createInitialStatistics now))).
  { unfold computeStatistics.
    match goal with
    | |- context [fold_left tallySubmission subs ?t] =>
        pose proof (fold_tally_category c subs t) as Hfold
    end.
    destruct c; exact Hfold. }
  rewrite Hobj.
  destruct (initial_counters_numeric c now key) as [Hnum Hzero].
  destruct (fold_incrementCounter (categoryKey c <$> subs) _ key Hkey Hproto Hnum)
    as (Hn & Hv & _).
  assert (Hocc : length (filter (fun k => k = key) (categoryKey c <$> subs))
                 = length (filter (fun submission => categoryKey c submission = key) subs)).
  { clear. induction subs as [|x l IH]; [reflexivity|].
    cbn [fmap list_fmap]. rewrite !filter_cons.
    destruct (decide (categoryKey c x = key)); simpl; rewrite IH; reflexivity. }
  rewrite Hocc in Hv. rewrite Hzero in Hv.
  split; [exact Hn|]. split; [lia|].
  intros Hpos. destruct Hn as [Hnone | [n Hsome]].
  - unfold counterValue in Hv. rewrite Hnone in Hv. lia.
  - unfold counterValue in Hv. rewrite Hsome in Hv. rewrite Hsome. f_equal. f_equal. lia.
Qed.

End Counters.

(** *** Score aggregates *)

Definition scoreOf (submission : Submission) : Z := healthScore (answers submission).

(** The number of submissions whose score satisfies a condition. *)
Definition countScores (P : Z -> Prop) `{∀ z, Decision (P z)}
    (subs : list Submission) : Z :=
  Z.of_nat (length (filter (fun submission => P (scoreOf submission)) subs)).

Definition sumScores (subs : list Submission) : Z :=
  foldr (fun submission acc => scoreOf submission + acc) 0 subs.

Section ScoreAggregates.

Context `{host : Host}.

Lemma fold_tally_project {X : Type} (proj : Tally -> X) (step : X -> Submission -> X) :
  (∀ t submission, proj (tallySubmission t submission) = step (proj t) submission) ->
  ∀ subs t, proj (fold_left tallySubmission subs t) = fold_left step subs (proj t).
Proof.
  intros Hstep subs. induction subs as [|submission subs IH]; intros t; [reflexivity|].
  cbn [fold_left]. rewrite IH, Hstep. reflexivity.
Qed.

Lemma countScores_cons (P : Z -> Prop) `{∀ z, Decision (P z)}
    (submission : Submission) (subs : list Submission) :
  countScores P (submission :: subs)
  = (if decide (P (scoreOf submission)) then 1 else 0) + countScores P subs.
Proof.
  unfold countScores. rewrite filter_cons.
  destruct (decide (P (scoreOf submission))); [rewrite length_cons|]; lia.
Qed.

Lemma fold_countScore (subs : list Submission) (d : Stats.Distribution) :
  let d' := fold_left (fun d submission => countScore (scoreOf submission) d) subs d in
  Stats.from0to20 d' = Stats.from0to20 d + countScores (fun z => z <= 20) subs
  ∧ Stats.from21to40 d'
    = Stats.from21to40 d + countScores (fun z => 20 < z <= 40) subs
  ∧ Stats.from41to60 d'
    = Stats.from41to60 d + countScores (fun z => 40 < z <= 60) subs
  ∧ Stats.from61to80 d'
    = Stats.from61to80 d + countScores (fun z => 60 < z <= 80) subs
  ∧ Stats.from81to100 d' = Stats.from81to100 d + countScores (fun z => 80 < z) subs.
Proof.
  revert d. induction subs as [|submission subs IH]; intros d; cbn zeta.
  - unfold countScores. simpl. repeat split; lia.
  - cbn [fold_left].
    destruct (IH (countScore (scoreOf submission) d)) as (H1 & H2 & H3 & H4 & H5).
    rewrite H1, H2, H3, H4, H5, !countScores_cons.
    unfold countScore.
    destruct (Z.leb_spec (scoreOf submission) 20);
      [|destruct (Z.leb_spec (scoreOf submission) 40);
        [|destruct (Z.leb_spec (scoreOf submission) 60);
          [|destruct (Z.leb_spec (scoreOf submission) 80)]]];
      cbn [Stats.from0to20 Stats.from21to40 Stats.from41to60 Stats.from61to80
           Stats.from81to100];
      repeat case_decide; repeat split; lia.
Qed.

(** Each bucket of the score distribution holds the number of submissions
    whose score lies in its range; scores of 20, 40, 60 and 80 fall into the
    lower bucket, and the first and last buckets are open-ended. *)
Theorem distribution_counts (now : Z) (subs : list Submission) :
  let d := Stats.distribution (Stats.healthScores (computeStatistics now subs)) in
  Stats.from0to20 d = countScores (fun z => z <= 20) subs
  ∧ Stats.from21to40 d = countScores (fun z => 20 < z <= 40) subs
  ∧ Stats.from41to60 d = countScores (fun z => 40 < z <= 60) subs
  ∧ Stats.from61to80 d = countScores (fun z => 60 < z <= 80) subs
  ∧ Stats.from81to100 d = countScores (fun z => 80 < z) subs.
Proof.
  cbn zeta. unfold computeStatistics.
  cbn [Stats.healthScores Stats.distribution].
  match goal with
  | |- context [fold_left tallySubmission subs ?start] =>
      rewrite (fold_tally_project
                 (fun tally => Stats.distribution (Stats.healthScores (stats tally)))
                 (fun d submission => countScore (scoreOf submission) d)
                 (fun _ _ => eq_refl) subs start)
  end.
  match goal with
  | |- context [fold_left _ subs ?d] => destruct (fold_countScore subs d) as (H1 & H2 & H3 & H4 & H5)
  end.
  rewrite H1, H2, H3, H4, H5. simpl. repeat split; lia.
Qed.

Lemma fold_min (subs : list Submission) (start : Z) :
  let m := fold_left (fun m submission => Z.min m (scoreOf submission)) subs start in
  m <= start
  ∧ Forall (fun submission => m <= scoreOf submission) subs
  ∧ (m = start ∨ ∃ submission, submission ∈ subs ∧ scoreOf submission = m).
Proof.
  revert start. induction subs as [|x subs IH]; intros start; cbn zeta.
  - simpl. split; [lia|]. split; [constructor | left; reflexivity].
  - cbn [fold_left]. destruct (IH (Z.min start (scoreOf x))) as (Hle & Hall & Hwit).
    split; [lia|]. split.
    + constructor; [lia | exact Hall].
    + destruct Hwit as [Heq | (y & Hy & Hscore)].
      * destruct (Z.min_spec start (scoreOf x)) as [[_ Hmin] | [_ Hmin]].
        -- left. lia.
        -- right. exists x. split; [left | lia].
      * right. exists y. split; [right; exact Hy | exact Hscore].
Qed.

Lemma fold_max (subs : list Submission) (start : Z) :
  let m := fold_left (fun m submission => Z.max m (scoreOf submission)) subs start in
  start <= m
  ∧ Forall (fun submission => scoreOf submission <= m) subs
  ∧ (m = start ∨ ∃ submission, submission ∈ subs ∧ scoreOf submission = m).
Proof.
  revert start. induction subs as [|x subs IH]; intros start; cbn zeta.
  - simpl. split; [lia|]. split; [constructor | left; reflexivity].
  - cbn [fold_left]. destruct (IH (Z.max start (scoreOf x))) as (Hle & Hall & Hwit).
    split; [lia|]. split.
    + constructor; [lia | exact Hall].
    + destruct Hwit as [Heq | (y & Hy & Hscore)].
      * destruct (Z.max_spec start (scoreOf x)) as [[_ Hmax] | [_ Hmax]].
        -- right. exists x. split; [left | lia].
        -- left. lia.
      * right. exists y. split; [right; exact Hy | exact Hscore].
Qed.

Lemma fold_sum (subs : list Submission) (start : Z) :
  fold_left (fun total submission => total + scoreOf submission) subs start
  = start + sumScores subs.
Proof.
  revert start. induction subs as [|x subs IH]; intros start; simpl; [lia|].
  rewrite IH. lia.
Qed.

Lemma sumScores_bounds (subs : list Submission) (low high : Z) :
  Forall (fun submission => low <= scoreOf submission <= high) subs ->
  Z.of_nat (length subs) * low <= sumScores subs <= Z.of_nat (length subs) * high.
Proof.
  induction 1 as [|x subs Hx _ IH]; [simpl; lia|].
  rewrite length_cons. cbn [sumScores foldr]. fold (sumScores subs). lia.
Qed.

Lemma roundedMean_bounds (total count : Z) :
  0 < count ->
  2 * count * roundedMean total count <= 2 * total + count
  ∧ 2 * total + count < 2 * count * (roundedMean total count + 1).
Proof.
  intros Hpos. unfold roundedMean.
  pose proof (Z.mul_div_le (2 * total + count) (2 * count)).
  pose proof (Z.mul_succ_div_gt (2 * total + count) (2 * count)).
  lia.
Qed.

(** For a non-empty collection with scores between 0 and 100 the summary's
    minimum and maximum are the least and the greatest score that occur, and
    its average is the mean of the scores rounded to the nearest integer
    (halves up), which lies between the two. *)
Theorem healthScores_aggregates (now : Z) (subs : list Submission) :
  subs ≠ [] ->
  Forall (fun submission => 0 <= scoreOf submission <= 100) subs ->
  let h := Stats.healthScores (computeStatistics now subs) in
  let count := Z.of_nat (length subs) in
  Forall (fun submission => Stats.min h <= scoreOf submission <= Stats.max h) subs
  ∧ (∃ submission, submission ∈ subs ∧ scoreOf submission = Stats.min h)
  ∧ (∃ submission, submission ∈ subs ∧ scoreOf submission = Stats.max h)
  ∧ Stats.min h <= Stats.average h <= Stats.max h
  ∧ 2 * count * Stats.average h <= 2 * sumScores subs + count
  ∧ 2 * sumScores subs + count < 2 * count * (Stats.average h + 1).
Proof.
  intros Hne Hrange. cbn zeta.
  assert (Hcount : 0 < Z.of_nat (length subs)) by (destruct subs; [congruence | simpl; lia]).
  unfold computeStatistics.
  cbn [Stats.healthScores Stats.min Stats.max Stats.average].
  assert (Hpos : (0 <? Z.of_nat (length subs)) = true) by (apply Z.ltb_lt; exact Hcount).
  rewrite Hpos.
  match goal with
  | |- context [fold_left tallySubmission subs ?start] =>
      rewrite (fold_tally_project minScore
                 (fun m submission => Z.min m (scoreOf submission))
                 (fun _ _ => eq_refl) subs start);
      rewrite (fold_tally_project maxScore
                 (fun m submission => Z.max m (scoreOf submission))
                 (fun _ _ => eq_refl) subs start);
      rewrite (fold_tally_project totalHealthScore
                 (fun total submission => total + scoreOf submission)
                 (fun _ _ => eq_refl) subs start)
  end.
  cbn [minScore maxScore totalHealthScore].
  rewrite fold_sum, Z.add_0_l.
  destruct (fold_min subs 100) as (Hmin_le & Hmin_all & Hmin_wit).
  destruct (fold_max subs 0) as (Hmax_ge & Hmax_all & Hmax_wit).
  cbn zeta in *.
  set (lo := fold_left (fun m submission => Z.min m (scoreOf submission)) subs 100) in *.
  set (hi := fold_left (fun m submission => Z.max m (scoreOf submission)) subs 0) in *.
  assert (Hbetween : Forall (fun submission => lo <= scoreOf submission <= hi) subs).
  { rewrite Forall_forall in Hmin_all, Hmax_all. apply Forall_forall.
    intros x Hx. split; [apply Hmin_all | apply Hmax_all]; exact Hx. }
  assert (Hsome : ∃ x, x ∈ subs) by (destruct subs as [|x ?]; [congruence | exists x; left]).
  destruct Hsome as [x0 Hx0].
  rewrite Forall_forall in Hrange.
  pose proof (Hrange x0 Hx0) as Hr0.
  pose proof (proj1 (Forall_forall _ _) Hbetween x0 Hx0) as Hb0.
  cbn beta in Hr0, Hb0.
  split; [exact Hbetween|].
  split.
  { destruct Hmin_wit as [Heq | Hwit]; [|exact Hwit].
    exists x0. split; [exact Hx0 | lia]. }
  split.
  { destruct Hmax_wit as [Heq | Hwit]; [|exact Hwit].
    exists x0. split; [exact Hx0 | lia]. }
  pose proof (sumScores_bounds subs lo hi Hbetween) as Hsum.
  destruct (roundedMean_bounds (sumScores subs) (Z.of_nat (length subs)) Hcount)
    as [Hlow Hhigh].
  split; [|split; [exact Hlow | exact Hhigh]].
  split; nia.
Qed.

(** The summary of the empty collection reports 0 submissions and 0 for the
    average, the minimum and the maximum, and it is the initial statistics
    record in every field but the minimum, which that record sets to 100. *)
Theorem computeStatistics_empty (now : Z) :
  let s := computeStatistics now [] in
  Stats.totalSubmissions s = 0
  ∧ Stats.average (Stats.healthScores s) = 0
  ∧ Stats.min (Stats.healthScores s) = 0
  ∧ Stats.max (Stats.healthScores s) = 0
  ∧ Stats.min (Stats.healthScores (createInitialStatistics now)) = 100
  ∧ s ≠ createInitialStatistics now
  ∧ s = {| Stats.totalSubmissions := 0;
           Stats.lastUpdated := now;
           Stats.demographics := Stats.demographics (createInitialStatistics now);
           Stats.lifestyle := Stats.lifestyle (createInitialStatistics now);
           Stats.healthClassifications :=
             Stats.healthClassifications (createInitialStatistics now);
           Stats.medicalConditions := Stats.medicalConditions (createInitialStatistics now);
           Stats.healthScores :=
             {| Stats.average := 0; Stats.min := 0; Stats.max := 0;
                Stats.distribution :=
                  Stats.distribution (Stats.healthScores (createInitialStatistics now)) |};
           Stats.riskFactors := Stats.riskFactors (createInitialStatistics now);
           Stats.trends := Stats.trends (createInitialStatistics now) |}.
Proof.
  cbn zeta. repeat split.
  intros Heq.
  assert (Hmin : Stats.min (Stats.healthScores (computeStatistics now []))
                 = Stats.min (Stats.healthScores (createInitialStatistics now)))
    by (rewrite Heq; reflexivity).
  simpl in Hmin. discriminate Hmin.
Qed.

End ScoreAggregates.

(** *** Initialization, clearing and the week key *)

Section Initialization.

Context `{host : Host}.

(** Initialization never overwrites a key that holds text: the submissions
    read the same before and after, the settings too unless the key was
    absent, and a second initialization changes nothing. *)
Theorem initializeStorage_preserves (now later : Z) (st : Storage) :
  getSubmissions (initializeStorage now st) = getSubmissions st
  ∧ (settings st ≠ Missing -> getSettings (initializeStorage now st) = getSettings st)
  ∧ (settings st = Missing -> getSettings (initializeStorage now st) = defaultSettings)
  ∧ initializeStorage later (initializeStorage now st) = initializeStorage now st.
Proof.
  unfold initializeStorage, getSubmissions, getSettings.
  destruct st as [subs stats setts]. cbn [submissions statistics settings].
  split; [destruct subs; reflexivity|].
  split; [destruct setts; intros H; congruence || reflexivity|].
  split; [intros ->; reflexivity|].
  destruct subs, stats, setts; reflexivity.
Qed.

(** When the settings key is absent, the constructor first installs the
    default settings and then runs the maintenance pass with them: it keeps
    the submissions younger than 365 days and records the pass.  (At an
    instant from which the day 365 days earlier is outside the range of the
    Date library, the pass keeps nothing.) *)
Theorem init_without_settings (now : Z) (st : Storage) :
  settings st = Missing ->
  getSubmissions (init now st)
  = (if bool_decide (Z.abs (now - 365 * dayInMs) <= maxTimeValue)
     then filter (fun submission => age now submission < 365 * dayInMs) (getSubmissions st)
     else [])
  ∧ getSettings (init now st)
    = {| dataRetentionDays := Some 365; maxSubmissions := Some 10000;
         exportFormat := Some "json"%string; anonymizeData := Some true;
         lastCleanup := Some now |}.
Proof.
  intros Hmissing.
  destruct (initializeStorage_preserves now now st) as (Hsubs & _ & Hdefault & _).
  specialize (Hdefault Hmissing).
  unfold init, performMaintenanceTasks. rewrite Hdefault.
  cbn [lastCleanup defaultSettings].
  split.
  - change (getSubmissions (updateSettings ?s ?x)) with (getSubmissions x).
    rewrite cleanupOldData_submissions, Hdefault, Hsubs.
    cbn [dataRetentionDays defaultSettings].
    destruct (bool_decide_reflect (Z.abs (now - 365 * dayInMs) <= maxTimeValue))
      as [Hvalid|Hinvalid].
    + rewrite (cutoffDate_valid now 365 Hvalid).
      apply filter_reflect. intros submission. apply isRecent_age.
    + rewrite (cutoffDate_invalid now 365) by lia. apply filter_none.
  - unfold updateSettings, getSettings at 1. cbn [settings].
    unfold getSettings. rewrite cleanupOldData_settings. fold (getSettings (initializeStorage now st)).
    rewrite Hdefault. reflexivity.
Qed.

(** An unconfirmed [clearAllData] changes nothing; a confirmed one leaves
    no submission, the default settings and the initial statistics, after
    which the CSV export reports that there is no data. *)
Theorem clearAllData_resets (now : Z) (st : Storage) (options : Exporter.Options) :
  clearAllData false now st = (false, st)
  ∧ (clearAllData true now st).1 = true
  ∧ getSubmissions (clearAllData true now st).2 = []
  ∧ getSettings (clearAllData true now st).2 = defaultSettings
  ∧ statistics (clearAllData true now st).2 = Stored (createInitialStatistics now)
  ∧ exportData "csv" options now (clearAllData true now st).2
    = Return (Exporter.Failure "No data to export").
Proof.
  repeat split.
Qed.

(** For a date within its local year the week key carries a week number
    between 1 and 54. *)
Theorem getWeekKey_range (date : Z) :
  0 <= getDay (newYearsDay (getFullYear date)) <= 6 ->
  newYearsDay (getFullYear date) <= date < newYearsDay (getFullYear date) + 367 * dayInMs ->
  ∃ week,
    1 <= week <= 54
    ∧ getWeekKey date = pretty (getFullYear date) +:+ "-W" +:+ padStart2 week.
Proof.
  intros Hday Hdate. unfold getWeekKey. eexists. split; [|reflexivity].
  unfold dayInMs in Hdate.
  set (start := newYearsDay (getFullYear date)) in *.
  assert (Hdays : 0 <= (date - start) / (24 * 60 * 60 * 1000) <= 366).
  { split.
    - apply Z.div_pos; lia.
    - apply Z.lt_succ_r. apply Z.div_lt_upper_bound; lia. }
  set (days := (date - start) / (24 * 60 * 60 * 1000)) in *.
  split.
  - apply Z.div_le_lower_bound; lia.
  - apply Z.lt_succ_r. apply Z.div_lt_upper_bound; lia.
Qed.

End Initialization.

(** *** Export formats and CSV cells *)

(** Two texts that agree and are each cut at their first occurrence of a
    character are cut into the same pieces. *)
Lemma split_at_first (c : ascii) (a b x y : string) :
  includesChar c a = false -> includesChar c b = false ->
  a +:+ String c x = b +:+ String c y -> a = b ∧ x = y.
Proof.
  revert b. induction a as [|d a IH]; intros b Ha Hb Heq.
  - destruct b as [|e b]; simpl in Heq.
    + inversion Heq. split; reflexivity.
    + inversion Heq; subst. simpl in Hb.
      rewrite bool_decide_eq_true_2 in Hb by reflexivity. discriminate Hb.
  - destruct b as [|e b]; simpl in Heq.
    + inversion Heq; subst. simpl in Ha.
      rewrite bool_decide_eq_true_2 in Ha by reflexivity. discriminate Ha.
    + inversion Heq; subst. simpl in Ha, Hb.
      apply orb_false_iff in Ha as [_ Ha]. apply orb_false_iff in Hb as [_ Hb].
      destruct (IH b Ha Hb) as [-> ->]; [assumption|]. split; reflexivity.
Qed.

Lemma replaceAll_without (c : ascii) (by_ s : string) :
  includesChar c s = false -> replaceAll c by_ s = s.
Proof.
  induction s as [|d s IH]; [reflexivity|].
  simpl. intros Hs. apply orb_false_iff in Hs as [Hd Hs].
  rewrite Hd, IH by exact Hs. reflexivity.
Qed.

(** The text of a string cell that holds no quote character. *)
Lemma csvCell_quote_free (s : string) :
  includesChar quote s = false ->
  csvCell (FString s)
  = if includesChar comma s then String quote (s +:+ String quote EmptyString) else s.
Proof.
  intros Hq. unfold csvCell. rewrite replaceAll_without by exact Hq. reflexivity.
Qed.

Lemma includesChar_head (c : ascii) (s rest : string) :
  includesChar c s = false -> s ≠ EmptyString ->
  ∀ t, s +:+ t ≠ String c rest.
Proof.
  intros Hs Hne t Heq. destruct s as [|d s]; [congruence|].
  simpl in Heq. inversion Heq; subst. simpl in Hs.
  rewrite bool_decide_eq_true_2 in Hs by reflexivity. discriminate Hs.
Qed.

(** A string without the character cannot start with it. *)
Ltac clash H :=
  simpl in H;
  first [ discriminate H
        | rewrite bool_decide_eq_true_2 in H by reflexivity; discriminate H ].

Lemma csvCell_cut (c1 c2 t1 t2 : string) :
  includesChar quote c1 = false -> includesChar quote c2 = false ->
  csvCell (FString c1) +:+ String comma t1 = csvCell (FString c2) +:+ String comma t2 ->
  c1 = c2 ∧ t1 = t2.
Proof.
  intros Hq1 Hq2. rewrite !csvCell_quote_free by assumption.
  destruct (includesChar comma c1) eqn:Hc1, (includesChar comma c2) eqn:Hc2; intros Heq.
  - simpl in Heq. inversion Heq as [Hrest]. rewrite !append_assoc in Hrest. simpl in Hrest.
    destruct (split_at_first quote c1 c2 _ _ Hq1 Hq2 Hrest) as [-> Ht].
    inversion Ht. split; reflexivity.
  - exfalso. destruct c2 as [|d c2].
    + simpl in Heq. inversion Heq.
    + simpl in Heq. inversion Heq; subst. clash Hq2.
  - exfalso. destruct c1 as [|d c1].
    + simpl in Heq. inversion Heq.
    + simpl in Heq. inversion Heq; subst. clash Hq1.
  - apply (split_at_first comma); assumption.
Qed.

Lemma csvCell_same (c1 c2 : string) :
  includesChar quote c1 = false -> includesChar quote c2 = false ->
  csvCell (FString c1) = csvCell (FString c2) -> c1 = c2.
Proof.
  intros Hq1 Hq2. rewrite !csvCell_quote_free by assumption.
  destruct (includesChar comma c1) eqn:Hc1, (includesChar comma c2) eqn:Hc2; intros Heq.
  - inversion Heq as [Hrest].
    destruct (split_at_first quote c1 c2 _ _ Hq1 Hq2 Hrest) as [-> _]. reflexivity.
  - exfalso. subst c2. clash Hq2.
  - exfalso. subst c1. clash Hq1.
  - exact Heq.
Qed.

Lemma csvLine_cons (cell next : string) (rest : list string) :
  csvLine (FString <$> cell :: next :: rest)
  = csvCell (FString cell) +:+ String comma (csvLine (FString <$> next :: rest)).
Proof. reflexivity. Qed.

(** On rows of string cells that hold no quote character the CSV line
    determines the cells: two rows of the same length with the same line are
    the same row. *)
Theorem csvLine_injective (cells1 cells2 : list string) :
  length cells1 = length cells2 ->
  Forall (fun cell => includesChar quote cell = false) cells1 ->
  Forall (fun cell => includesChar quote cell = false) cells2 ->
  csvLine (FString <$> cells1) = csvLine (FString <$> cells2) ->
  cells1 = cells2.
Proof.
  revert cells2.
  induction cells1 as [|c1 rest1 IH]; intros [|c2 rest2] Hlen H1 H2 Heq;
    try discriminate Hlen; [reflexivity|].
  apply Forall_cons in H1 as [Hq1 H1]. apply Forall_cons in H2 as [Hq2 H2].
  injection Hlen as Hlen.
  destruct rest1 as [|d1 rest1], rest2 as [|d2 rest2]; try discriminate Hlen.
  - f_equal. apply csvCell_same; assumption.
  - rewrite !csvLine_cons in Heq.
    destruct (csvCell_cut c1 c2 _ _ Hq1 Hq2 Heq) as [-> Hrest].
    f_equal. apply IH; assumption.
Qed.

Section ExportFormats.

Context `{host : Host}.

(** The JSON export holds the stored submissions in their order, or none
    when the option excludes them, and its metadata counts the stored
    submissions either way. *)
Theorem exportData_json (options : Exporter.Options) (now : Z) (st : Storage) :
  ∃ data filename,
    exportData "json" options now st
    = Return (Exporter.Success (Exporter.JsonBlob data) filename "application/json")
    ∧ Exporter.submissions data
      = (if bool_decide (Exporter.includeSubmissions options = Some false)
         then [] else getSubmissions st)
    ∧ Exporter.totalSubmissions (Exporter.metadata data)
      = Z.of_nat (length (getSubmissions st))
    ∧ Exporter.exportDate (Exporter.metadata data) = now.
Proof.
  unfold exportData. cbn [toLowerCase String.eqb]. simpl.
  eexists. eexists. split; [reflexivity|]. simpl.
  split; [|split; reflexivity].
  destruct (Exporter.includeSubmissions options) as [[|]|]; reflexivity.
Qed.

End ExportFormats.

(** *** Closed instances *)

Definition twoSubmissions : list Submission :=
  [sampleSubmission 1000 "id1"; sampleSubmission 2000 "id2"].

Definition settingsWithMaximum (limit : Z) : Settings :=
  {| dataRetentionDays := Some 365; maxSubmissions := Some limit;
     exportFormat := Some "json"%string; anonymizeData := Some true;
     lastCleanup := None |}.

Definition moderateData : SubmissionData :=
  {| givenTimestamp := Some 3000; givenAnswers := sampleAnswers 40 "moderate" |}.

Definition scored (timestamp score : Z) : Submission :=
  {| timestamp := timestamp; id := "id"; answers := sampleAnswers score "moderate" |}.

Lemma addSubmission_within_maximum_witness :
  ∃ kept stored st',
    addSubmission moderateData "id3" 3000 (storageOf twoSubmissions (settingsWithMaximum 2))
    = (true, st')
    ∧ getSubmissions st' = kept ++ [stored]
    ∧ kept `suffix_of` getSubmissions (storageOf twoSubmissions (settingsWithMaximum 2))
    ∧ Z.of_nat (length (getSubmissions st')) <= 2
    ∧ last (getSubmissions st') = Some stored
    ∧ id stored = "id3"%string.
Proof.
  apply (addSubmission_within_maximum
           moderateData "id3" 3000 (storageOf twoSubmissions (settingsWithMaximum 2)) 2).
  - reflexivity.
  - lia.
  - reflexivity.
Defined.

Lemma maintenance_keeps_coherence_witness :
  coherent (cleanupOldData (400 * dayInMs)
              (updateStatistics 0 twoSubmissions (storageOf twoSubmissions defaultSettings)))
  ∧ coherent (performMaintenanceTasks (400 * dayInMs)
                (updateStatistics 0 twoSubmissions
                   (storageOf twoSubmissions defaultSettings))).
Proof.
  apply (maintenance_keeps_coherence
           (400 * dayInMs)
           (updateStatistics 0 twoSubmissions (storageOf twoSubmissions defaultSettings))).
  exists 0. reflexivity.
Defined.

Lemma cleanupOldData_without_retention_witness :
  getSubmissions
    (cleanupOldData 5000
       {| submissions := Stored twoSubmissions; statistics := Missing;
          settings := Missing |})
  = [].
Proof.
  apply (cleanupOldData_without_retention
           5000
           {| submissions := Stored twoSubmissions; statistics := Missing;
              settings := Missing |}).
  reflexivity.
Defined.

Lemma cleanupOldData_twice_witness :
  getSubmissions
    (cleanupOldData (1500 + 365 * dayInMs)
       (cleanupOldData 5000 (storageOf twoSubmissions defaultSettings)))
  = getSubmissions
      (cleanupOldData (1500 + 365 * dayInMs) (storageOf twoSubmissions defaultSettings))
  ∧ cleanupOldData 5000 (cleanupOldData 5000 (storageOf twoSubmissions defaultSettings))
    = cleanupOldData 5000 (storageOf twoSubmissions defaultSettings).
Proof.
  apply (cleanupOldData_twice
           5000 (1500 + 365 * dayInMs) (storageOf twoSubmissions defaultSettings)).
  - unfold dayInMs. lia.
  - intros days [= <-]. vm_compute. discriminate.
Defined.

Lemma category_counts_witness :
  counterValue (categoryCounter AgeGroups (computeStatistics 5000 twoSubmissions)) "26-35"
  = Z.of_nat
      (length (filter (fun submission => categoryKey AgeGroups submission = "26-35"%string)
                      twoSubmissions)).
Proof.
  apply (category_counts AgeGroups 5000 twoSubmissions "26-35").
  - discriminate.
  - intros Hin. apply (bool_decide_pack _) in Hin. vm_compute in Hin. exact Hin.
Defined.

Lemma healthScores_aggregates_witness :
  Forall (fun submission =>
            Stats.min (Stats.healthScores (computeStatistics 5000 [scored 1000 40; scored 2000 85]))
            <= scoreOf submission
            <= Stats.max (Stats.healthScores
                            (computeStatistics 5000 [scored 1000 40; scored 2000 85])))
         [scored 1000 40; scored 2000 85].
Proof.
  apply (healthScores_aggregates 5000 [scored 1000 40; scored 2000 85]).
  - discriminate.
  - repeat constructor; unfold scoreOf; simpl; lia.
Defined.

Lemma init_without_settings_witness :
  getSubmissions
    (init (1500 + 365 * dayInMs)
       {| submissions := Stored twoSubmissions; statistics := Missing;
          settings := Missing |})
  = filter (fun submission => age (1500 + 365 * dayInMs) submission < 365 * dayInMs)
           twoSubmissions.
Proof.
  exact (proj1 (init_without_settings
                  (1500 + 365 * dayInMs)
                  {| submissions := Stored twoSubmissions; statistics := Missing;
                     settings := Missing |}
                  eq_refl)).
Defined.

Lemma getWeekKey_range_witness :
  ∃ week,
    1 <= week <= 54
    ∧ getWeekKey 5000 = pretty (getFullYear 5000) +:+ "-W" +:+ padStart2 week.
Proof.
  apply (getWeekKey_range 5000).
  - cbn. lia.
  - cbn. unfold dayInMs. lia.
Defined.

Lemma csvLine_injective_witness :
  ["Pune, MH"; "active"]%string = ["Pune, MH"; "active"]%string.
Proof.
  apply (csvLine_injective ["Pune, MH"; "active"]%string ["Pune, MH"; "active"]%string).
  - reflexivity.
  - repeat constructor.
  - repeat constructor.
  - reflexivity.
Defined.

End DataManagerSpec.

(** * Properties of the dashboard *)

Module DashboardSpec.

Import JS HealthDataManager HealthDashboard.

(** The current page is a page that exists (page 1 when there is none). *)
Definition validPage (d : Dashboard) : Prop :=
  1 <= currentPage d <= Z.max 1 (totalPages d).

(** *** Pages *)

Lemma slice_chunk {A : Type} (start size : Z) (xs : list A) :
  0 <= start -> 0 <= size ->
  slice start (Z.min (start + size) (Z.of_nat (length xs))) xs
  = take (Z.to_nat size) (drop (Z.to_nat start) xs).
Proof.
  intros Hstart Hsize. unfold slice.
  assert (Hs : (start <? 0) = false) by (apply Z.ltb_ge; lia).
  assert (He : (Z.min (start + size) (Z.of_nat (length xs)) <? 0) = false)
    by (apply Z.ltb_ge; lia).
  rewrite Hs, He.
  destruct (Z.le_gt_cases start (Z.of_nat (length xs))) as [Hin | Hout].
  - rewrite (Z.min_l start) by exact Hin.
    destruct (Z.le_gt_cases (start + size) (Z.of_nat (length xs))) as [Hfull | Hpart].
    + f_equal. lia.
    + rewrite !take_ge; [reflexivity | |]; rewrite length_drop; lia.
  - rewrite (Z.min_r start) by lia.
    rewrite !drop_ge by lia. rewrite !take_nil. reflexivity.
Qed.

Lemma chunks_concat {A : Type} (size count : nat) (xs : list A) :
  concat ((fun i => take size (drop (i * size) xs)) <$> seq 0 count)
  = take (count * size) xs.
Proof.
  induction count as [|count IH]; [reflexivity|].
  rewrite seq_S, fmap_app, concat_app, IH. simpl.
  rewrite app_nil_r, take_take_drop. f_equal. lia.
Qed.

Lemma pageData_chunk (page : Z) (d : Dashboard) :
  1 <= page -> 0 < itemsPerPage d ->
  pageData page d
  = take (Z.to_nat (itemsPerPage d))
         (drop (Z.to_nat (page - 1) * Z.to_nat (itemsPerPage d)) (filteredData d)).
Proof.
  intros Hpage Hsize. unfold pageData. cbn zeta.
  rewrite slice_chunk by nia. f_equal. f_equal. nia.
Qed.

Lemma totalPages_covers (d : Dashboard) :
  0 < itemsPerPage d ->
  0 <= totalPages d
  ∧ Z.of_nat (length (filteredData d)) <= totalPages d * itemsPerPage d
  ∧ (totalPages d - 1) * itemsPerPage d < Z.of_nat (length (filteredData d))
    ∨ (totalPages d = 0 ∧ filteredData d = []).
Proof.
  intros Hsize. unfold totalPages.
  set (n := Z.of_nat (length (filteredData d))).
  set (m := itemsPerPage d) in *.
  pose proof (Z.mul_div_le (n + m - 1) m Hsize).
  pose proof (Z.mul_succ_div_gt (n + m - 1) m Hsize).
  destruct (filteredData d) as [|x l] eqn:Hdata.
  - right. subst n. simpl. split; [|reflexivity].
    apply Z.div_small. lia.
  - left. assert (0 < n) by (subst n; simpl; lia).
    assert (0 <= (n + m - 1) / m) by (apply Z.div_pos; lia).
    split; [assumption|]. split; nia.
Qed.

(** The pages of the table partition the filtered rows: shown one after
    the other, pages 1 to [totalPages] give exactly the filtered rows in
    their order, and each of these pages holds at least one row and at most
    [itemsPerPage] rows. *)
Theorem pages_partition (d : Dashboard) :
  0 < itemsPerPage d ->
  concat ((fun page => pageData page d) <$> seqZ 1 (totalPages d)) = filteredData d
  ∧ ∀ page, 1 <= page <= totalPages d ->
      1 <= Z.of_nat (length (pageData page d)) <= itemsPerPage d.
Proof.
  intros Hsize. split.
  - unfold seqZ. rewrite <- list_fmap_compose.
    rewrite (list_fmap_ext _
               (fun i => take (Z.to_nat (itemsPerPage d))
                              (drop (i * Z.to_nat (itemsPerPage d)) (filteredData d)))).
    + rewrite chunks_concat. apply take_ge.
      destruct (totalPages_covers d Hsize) as [(Hnn & Hcover & _) | [Hzero Hempty]].
      * nia.
      * rewrite Hempty. simpl. lia.
    + intros i x _. cbn [compose].
      rewrite pageData_chunk by lia. f_equal. f_equal. f_equal. lia.
  - intros page [Hlow Hhigh].
    rewrite pageData_chunk by lia.
    rewrite length_take, length_drop.
    destruct (totalPages_covers d Hsize) as [(Hnn & Hcover & Hlast) | [Hzero _]]; [|lia].
    assert ((page - 1) * itemsPerPage d < Z.of_nat (length (filteredData d))) by nia.
    nia.
Qed.

(** *** Navigation *)

Lemma withPage_current (d : Dashboard) : withPage (currentPage d) d = d.
Proof. destruct d; reflexivity. Qed.

(** The two pagination buttons keep the current page among the pages that
    exist and never change the rows; Next followed by Previous, and Previous
    followed by Next, lead back to the page they started from whenever the
    first of the two moved. *)
Theorem navigation_keeps_page_valid (d : Dashboard) :
  validPage d ->
  validPage (prevPage d) ∧ validPage (nextPage d)
  ∧ filteredData (prevPage d) = filteredData d
  ∧ filteredData (nextPage d) = filteredData d
  ∧ (currentPage d < totalPages d -> prevPage (nextPage d) = d)
  ∧ (1 < currentPage d -> nextPage (prevPage d) = d).
Proof.
  unfold validPage, prevPage, nextPage. intros [Hlow Hhigh].
  destruct (Z.ltb_spec 1 (currentPage d)) as [Hprev | Hprev];
    destruct (Z.ltb_spec (currentPage d) (totalPages d)) as [Hnext | Hnext];
    cbn [withPage currentPage filteredData];
    unfold totalPages in *; cbn [withPage currentPage filteredData itemsPerPage];
    repeat split; try lia.
  all: try (intros Habs; lia).
  all: intros _.
  all: repeat match goal with
              | |- context [?a <? ?b] => destruct (Z.ltb_spec a b); try lia
              end.
  all: try (replace (currentPage d + 1 - 1) with (currentPage d) by lia);
       try (replace (currentPage d - 1 + 1) with (currentPage d) by lia);
       destruct d; reflexivity.
Qed.

(** *** Filters *)

Lemma startsWith_app (sub rest : string) : startsWith sub (sub +:+ rest) = true.
Proof.
  induction sub as [|c sub IH]; [reflexivity|].
  simpl. rewrite bool_decide_eq_true_2 by reflexivity. exact IH.
Qed.

Lemma includesString_cons (sub : string) (c : ascii) (s : string) :
  includesString sub (String c s) = startsWith sub (String c s) || includesString sub s.
Proof. reflexivity. Qed.

Lemma includesString_start (sub rest : string) :
  includesString sub (sub +:+ rest) = true.
Proof.
  destruct (sub +:+ rest) as [|c s] eqn:Heq.
  - cbn [includesString]. rewrite <- Heq, startsWith_app. reflexivity.
  - rewrite includesString_cons, <- Heq, startsWith_app. reflexivity.
Qed.

Lemma includesString_middle (before sub after : string) :
  includesString sub (before +:+ sub +:+ after) = true.
Proof.
  induction before as [|c before IH]; [exact (includesString_start sub after)|].
  change (String c before +:+ sub +:+ after) with (String c (before +:+ sub +:+ after)).
  rewrite includesString_cons, IH. apply orb_true_r.
Qed.

Lemma beforeFirst_prefix (c : ascii) (s : string) :
  ∃ rest, s = beforeFirst c s +:+ rest.
Proof.
  induction s as [|d s [rest IH]]; [exists EmptyString; reflexivity|].
  cbn [beforeFirst]. destruct (bool_decide (d = c)).
  - exists (String d s). reflexivity.
  - exists rest. change (String d s = String d (beforeFirst c s +:+ rest)).
    f_equal. exact IH.
Qed.

(** A location includes the name under which it is listed. *)
Lemma location_includes_its_name (location : string) :
  includesString (trim (beforeFirst "," location)) location = true.
Proof.
  destruct (beforeFirst_prefix "," location) as [rest Hrest].
  destruct (DataManagerSpec.trimStart_suffix (beforeFirst "," location))
    as [leading Hleading].
  destruct (DataManagerSpec.trimEnd_prefix (trimStart (beforeFirst "," location)))
    as [trailing Htrailing].
  unfold trim.
  set (name := trimEnd (trimStart (beforeFirst "," location))) in *.
  assert (Hshape : location = leading +:+ name +:+ (trailing +:+ rest)).
  { rewrite Hrest at 1. rewrite Hleading at 1. rewrite Htrailing at 1.
    rewrite !DataManagerSpec.append_assoc. reflexivity. }
  pose proof (includesString_middle leading name (trailing +:+ rest)) as Hmiddle.
  rewrite <- Hshape in Hmiddle. exact Hmiddle.
Qed.

Lemma matchesFilters_none (item : Submission) :
  matchesFilters {| ageGroupFilter := ""; genderFilter := ""; locationFilter := "" |} item
  = true.
Proof. reflexivity. Qed.

Lemma filter_all {A : Type} (f : A -> bool) (l : list A) :
  (∀ x, f x = true) -> List.filter f l = l.
Proof.
  intros Hf. induction l as [|x l IH]; [reflexivity|].
  simpl. rewrite Hf, IH. reflexivity.
Qed.

Lemma filter_filter_same {A : Type} (f : A -> bool) (l : list A) :
  List.filter f (List.filter f l) = List.filter f l.
Proof.
  induction l as [|x l IH]; [reflexivity|].
  simpl. destruct (f x) eqn:Hx; [simpl; rewrite Hx, IH|]; [reflexivity | exact IH].
Qed.

(** Applying the filters shows exactly the loaded rows that match them, in
    their order, and returns to page 1; with the three filters empty it
    shows every loaded row. *)
Theorem applyFilters_shows_matches (d : Dashboard) :
  (∀ item, item ∈ filteredData (applyFilters d)
           <-> item ∈ rawData d ∧ matchesFilters (currentFilters d) item = true)
  ∧ sublist (filteredData (applyFilters d)) (rawData d)
  ∧ currentPage (applyFilters d) = 1
  ∧ rawData (applyFilters d) = rawData d
  ∧ (currentFilters d
     = {| ageGroupFilter := ""; genderFilter := ""; locationFilter := "" |} ->
     filteredData (applyFilters d) = rawData d).
Proof.
  unfold applyFilters. cbn [filteredData currentPage rawData].
  split.
  { intros item. rewrite !list_elem_of_In, filter_In. reflexivity. }
  split.
  { induction (rawData d) as [|x l IH]; [constructor|].
    simpl. destruct (matchesFilters (currentFilters d) x);
      [apply sublist_skip | apply sublist_cons]; exact IH. }
  split; [reflexivity|]. split; [reflexivity|].
  intros ->. apply filter_all. exact matchesFilters_none.
Qed.

(** Every row is listed among the location names, without repetition, and
    choosing a listed name as the only filter shows at least every row that
    is listed under it. *)
Theorem location_filter_shows_its_rows (d : Dashboard) (item : Submission) :
  item ∈ rawData d ->
  let name := trim (beforeFirst "," (location (demographics (answers item)))) in
  name ∈ locationNames (rawData d)
  ∧ NoDup (locationNames (rawData d))
  ∧ item ∈ filteredData
             (setFilters
                {| ageGroupFilter := ""; genderFilter := ""; locationFilter := name |} d).
Proof.
  intros Hitem name. split; [|split].
  - unfold locationNames. rewrite elem_of_remove_dups.
    apply list_elem_of_fmap. exists item. split; [reflexivity | exact Hitem].
  - apply NoDup_remove_dups.
  - unfold setFilters, applyFilters. cbn [filteredData rawData currentFilters].
    rewrite list_elem_of_In, filter_In. split; [rewrite <- list_elem_of_In; exact Hitem|].
    unfold matchesFilters. cbn [ageGroupFilter genderFilter locationFilter].
    rewrite !bool_decide_eq_true_2 by reflexivity. cbn [orb andb].
    subst name. rewrite location_includes_its_name. apply orb_true_r.
Qed.

(** *** Summary *)

Lemma fold_add_scores (subs : list Submission) (start : Z) :
  fold_left Z.add (map (fun item => healthScore (answers item)) subs) start
  = fold_left (fun total submission => total + healthScore (answers submission)) subs start.
Proof.
  revert start. induction subs as [|x subs IH]; intros start; [reflexivity|].
  simpl. apply IH.
Qed.

Lemma fold_tally_total `{host : Host} (subs : list Submission) (t : Tally) :
  totalHealthScore (fold_left tallySubmission subs t)
  = fold_left (fun total submission => total + healthScore (answers submission))
              subs (totalHealthScore t).
Proof.
  revert t. induction subs as [|x subs IH]; intros t; [reflexivity|].
  cbn [fold_left]. rewrite IH. reflexivity.
Qed.

(** On the unfiltered rows the average the dashboard shows is the average
    the data manager stores in its statistics for the same submissions. *)
Theorem dashboard_average_agrees `{host : Host} (now : Z) (subs : list Submission) :
  averageHealthScore (loadData subs)
  = Stats.average (Stats.healthScores (computeStatistics now subs)).
Proof.
  unfold averageHealthScore, loadData, computeStatistics.
  cbn [filteredData Stats.healthScores Stats.average].
  rewrite length_map, fold_add_scores, fold_tally_total. reflexivity.
Qed.

(** *** Closed instances *)

Definition row (n : Z) (place : string) : Submission :=
  {| timestamp := n;
     id := pretty n;
     answers :=
       {| demographics := {| ageGroup := "26-35"; gender := "female"; location := place |};
          lifestyle :=
            {| physicalActivity := "active"; dietHabits := "balanced";
               sleepHours := "7-8"; smoking := "never"; alcohol := "rarely" |};
          medicalConditions := ["none"%string];
          overallHealth := "good";
          additionalComments := "";
          healthClassification := "healthy";
          riskFactors := [];
          healthScore := 85 |} |}.

Definition twelveRows : list Submission :=
  (fun n => row n " Pune , India") <$> seqZ 1 12.

Lemma pages_partition_witness :
  concat ((fun page => pageData page (loadData twelveRows))
            <$> seqZ 1 (totalPages (loadData twelveRows)))
  = filteredData (loadData twelveRows).
Proof.
  apply (pages_partition (loadData twelveRows)).
  simpl. lia.
Defined.

Lemma navigation_keeps_page_valid_witness :
  validPage (prevPage (loadData twelveRows)).
Proof.
  apply (navigation_keeps_page_valid (loadData twelveRows)).
  unfold validPage. cbn [currentPage loadData]. split; [lia | apply Z.le_max_l].
Defined.

Lemma location_filter_shows_its_rows_witness :
  row 1 " Pune , India"
  ∈ filteredData
      (setFilters
         {| ageGroupFilter := ""; genderFilter := "";
            locationFilter := trim (beforeFirst "," " Pune , India") |}
         (loadData [row 1 " Pune , India"; row 2 "Mumbai"])).
Proof.
  apply (location_filter_shows_its_rows
           (loadData [row 1 " Pune , India"; row 2 "Mumbai"]) (row 1 " Pune , India")).
  left.
Defined.

End DashboardSpec.
